(** * onePAChecker: a shallow embedding of [check_slots.py]

    The script polls a facility-booking API for a fixed list of venues over a
    short window of days, extracts the available slots, formats a summary and
    sends it to a chat endpoint.  This development embeds the script's
    functions in Rocq and proves the properties its specification states.

    Modelling conventions.
    - A Python [str] is a sequence of Unicode code points ([pystr]).
    - A decoded JSON document is a [pyval]; a [dict] is an association list
      in insertion order whose lookup returns the first binding of a key.
      JSON numbers are [int] or [float]; a float is an infinity or a dyadic
      rational [m * 2^e] (the decoder's not-a-number extension is left out).
    - A Python exception that the script does not catch is a [Raise] result.
    - The network, the clock and the chat endpoint are oracles of an [env];
      every request, sleep, post and file write is appended to a [history],
      which the oracles can consult.
    - Printing to standard output is not modelled.  The entry point of the
      script (lines 280-309) is for that reason left out: what it does
      depends on whether its prints of non-ASCII text succeed. *)

From Stdlib Require Import ZArith NArith List String Ascii Bool Arith Lia.
From Stdlib Require Import DecimalString.
From Equations Require Import Equations.
From Equations.Prop Require Import Logic.
Import ListNotations.

Set Implicit Arguments.
Set Warnings "-register-all,-abstract-large-number".

(* ===================================================================== *)
(** ** Python values *)
(* ===================================================================== *)

Module Py.

Definition pychar := N.
Definition pystr := list pychar.

(** An ASCII literal of the source as a Python string. *)
Definition lit (s : string) : pystr := map N_of_ascii (list_ascii_of_string s).
Arguments lit s%_string.

Fixpoint str_eqb (a b : pystr) : bool :=
  match a, b with
  | [], [] => true
  | x :: a', y :: b' => N.eqb x y && str_eqb a' b'
  | _, _ => false
  end.

(** Python orders strings lexicographically by code point. *)
Fixpoint str_leb (a b : pystr) : bool :=
  match a, b with
  | [], _ => true
  | _ :: _, [] => false
  | x :: a', y :: b' => if N.ltb x y then true
                        else if N.eqb x y then str_leb a' b' else false
  end.

Fixpoint is_prefix (p s : pystr) : bool :=
  match p, s with
  | [], _ => true
  | _ :: _, [] => false
  | x :: p', y :: s' => N.eqb x y && is_prefix p' s'
  end.

(** [p in s] on two strings: substring test. *)
Fixpoint is_substring (p s : pystr) : bool :=
  is_prefix p s ||
  match s with
  | [] => false
  | _ :: s' => is_substring p s'
  end.

(** A float decoded from JSON: an infinity, or the dyadic [m * 2^e]. *)
Inductive pyfloat :=
| FInf (negative : bool)
| FFin (m e : Z).

Definition float_is_zero (f : pyfloat) : bool :=
  match f with
  | FInf _ => false
  | FFin m _ => Z.eqb m 0
  end.

Definition float_eq_int (f : pyfloat) (z : Z) : bool :=
  match f with
  | FInf _ => false
  | FFin m e => if Z.leb 0 e then Z.eqb (m * 2 ^ e) z
                else Z.eqb m (z * 2 ^ (- e))
  end.

Inductive pyval :=
| PyNone
| PyBool (b : bool)
| PyInt (z : Z)
| PyFloat (f : pyfloat)
| PyStr (s : pystr)
| PyList (items : list pyval)
| PyDict (fields : list (pystr * pyval)).

Definition pydict := list (pystr * pyval).

(** Lookup in a dict with string keys. *)
Fixpoint dict_get {V} (d : list (pystr * V)) (k : pystr) : option V :=
  match d with
  | [] => None
  | (k', v) :: d' => if str_eqb k' k then Some v else dict_get d' k
  end.

(** [d[k] = v]: replaces the value of an existing key in place, and adds a
    new key at the end. *)
Fixpoint dict_set {V} (d : list (pystr * V)) (k : pystr) (v : V)
  : list (pystr * V) :=
  match d with
  | [] => [(k, v)]
  | (k', v') :: d' => if str_eqb k' k then (k', v) :: d'
                      else (k', v') :: dict_set d' k v
  end.

(** Truth value of an object, as [if v:] and [not v] test it. *)
Definition truthy (v : pyval) : bool :=
  match v with
  | PyNone => false
  | PyBool b => b
  | PyInt z => negb (Z.eqb z 0)
  | PyFloat f => negb (float_is_zero f)
  | PyStr s => match s with [] => false | _ => true end
  | PyList l => match l with [] => false | _ => true end
  | PyDict d => match d with [] => false | _ => true end
  end.

(** [v == z] for an int literal [z]: numbers compare by value, and
    [True] and [False] are the ints 1 and 0. *)
Definition eq_int (v : pyval) (z : Z) : bool :=
  match v with
  | PyBool b => Z.eqb (if b then 1 else 0) z
  | PyInt n => Z.eqb n z
  | PyFloat f => float_eq_int f z
  | _ => false
  end.

(** [v == s] for a string literal [s]. *)
Definition eq_str (v : pyval) (s : pystr) : bool :=
  match v with
  | PyStr t => str_eqb t s
  | _ => false
  end.

Definition float_eqb (f g : pyfloat) : bool :=
  match f, g with
  | FInf a, FInf b => Bool.eqb a b
  | FFin m e, FFin m' e' =>
      if Z.leb e e' then Z.eqb m (m' * 2 ^ (e' - e))
      else Z.eqb (m * 2 ^ (e - e')) m'
  | _, _ => false
  end.

(** Lists and dicts cannot be dict keys. *)
Definition hashable (v : pyval) : bool :=
  match v with
  | PyList _ | PyDict _ => false
  | _ => true
  end.

(** Equality of two hashable values, as a dict compares its keys. *)
Definition key_eqb (a b : pyval) : bool :=
  match a, b with
  | PyNone, PyNone => true
  | PyStr s, PyStr t => str_eqb s t
  | PyBool x, _ => eq_int b (if x then 1 else 0)
  | PyInt x, _ => eq_int b x
  | PyFloat f, PyFloat g => float_eqb f g
  | PyFloat f, PyInt y => float_eq_int f y
  | PyFloat f, PyBool y => float_eq_int f (if y then 1 else 0)
  | _, _ => false
  end.

(** Exceptions the script can meet and does not catch itself. *)
Inductive pyexc := AttributeError | TypeError | KeyError | ValueError.

Inductive res (A : Type) :=
| Ok (a : A)
| Raise (e : pyexc).
Arguments Ok {A} a.
Arguments Raise {A} e.

Definition rbind {A B} (m : res A) (k : A -> res B) : res B :=
  match m with
  | Ok a => k a
  | Raise e => Raise e
  end.

(** [v.get(k, default)]: only a dict has the method. *)
Definition get (v : pyval) (k : pystr) (default : pyval) : res pyval :=
  match v with
  | PyDict d => Ok (match dict_get d k with Some x => x | None => default end)
  | _ => Raise AttributeError
  end.

(** [k in v] for a string [k]. *)
Definition contains (k : pystr) (v : pyval) : res bool :=
  match v with
  | PyDict d => Ok (match dict_get d k with Some _ => true | None => false end)
  | PyList l => Ok (existsb (fun x => eq_str x k) l)
  | PyStr s => Ok (is_substring k s)
  | _ => Raise TypeError
  end.

(** [v[k]] for a string [k]. *)
Definition getitem (v : pyval) (k : pystr) : res pyval :=
  match v with
  | PyDict d => match dict_get d k with Some x => Ok x | None => Raise KeyError end
  | _ => Raise TypeError
  end.

(** The items a [for] loop over [v] visits. *)
Definition iter (v : pyval) : res (list pyval) :=
  match v with
  | PyList l => Ok l
  | PyDict d => Ok (map (fun kv => PyStr (fst kv)) d)
  | PyStr s => Ok (map (fun c => PyStr [c]) s)
  | _ => Raise TypeError
  end.

End Py.
Import Py.

Declare Scope res_scope.
Delimit Scope res_scope with res.
Notation "x <- m ;; k" := (rbind m (fun x => k))
  (at level 61, m at next level, right associativity) : res_scope.

(* ===================================================================== *)
(** ** Response parser *)
(* ===================================================================== *)

(** One entry of the list [extract_available_slots] returns: the dict with
    keys [court], [time], [startTime], [endTime] and [isPeak]. *)
Record SlotRecord := mkSlot {
  court : pyval;
  time : pyval;
  startTime : pyval;
  endTime : pyval;
  isPeak : pyval
}.

(** The value stored under a date: the dict with keys [slots],
    [outletDivision] and [price] (lines 192-196). *)
Record DateEntry := mkEntry {
  slots : list SlotRecord;
  outletDivision : pyval;
  price : pyval
}.

(** [all_available_slots]: facility -> date string -> entry, both levels in
    insertion order. *)
Definition dates_map := list (pystr * DateEntry).
Definition aggregate := list (pystr * dates_map).

Section Parser.
Local Open Scope res_scope.

(** A [for] loop whose body extends an accumulator and may raise. *)
Fixpoint for_each {A B} (body : A -> B -> res B) (items : list A) (acc : B)
  : res B :=
  match items with
  | [] => Ok acc
  | x :: rest => acc' <- body x acc ;; for_each body rest acc'
  end.

(** The test of line 137:
    [slot.get('isAvailable') or slot.get('availabilityStatus') == 'Available']. *)
Definition slot_is_available (slot : pyval) : res bool :=
  a <- get slot (lit "isAvailable") PyNone ;;
  if truthy a then Ok true
  else s <- get slot (lit "availabilityStatus") PyNone ;;
       Ok (eq_str s (lit "Available")).

(** Body of the inner loop (lines 135-144). *)
Definition slot_body (resource_name : pyval) (slot : pyval)
  (available_slots : list SlotRecord) : res (list SlotRecord) :=
  ok <- slot_is_available slot ;;
  if ok then
    t <- get slot (lit "timeRangeName") PyNone ;;
    st <- get slot (lit "startTime") PyNone ;;
    en <- get slot (lit "endTime") PyNone ;;
    pk <- get slot (lit "isPeak") (PyBool false) ;;
    Ok (available_slots ++ [mkSlot resource_name t st en pk])
  else Ok available_slots.

(** Body of the outer loop (lines 131-144). *)
Definition resource_body (resource : pyval) (available_slots : list SlotRecord)
  : res (list SlotRecord) :=
  resource_name <- get resource (lit "resourceName") (PyStr (lit "Unknown")) ;;
  slot_list <- get resource (lit "slotList") (PyList []) ;;
  slots <- iter slot_list ;;
  for_each (slot_body resource_name) slots available_slots.

Definition extract_available_slots (response_data : pyval)
  : res (list SlotRecord) :=
  let available_slots := [] in
  if negb (truthy response_data) then Ok available_slots
  else
    has <- contains (lit "response") response_data ;;
    if negb has then Ok available_slots
    else
      response <- getitem response_data (lit "response") ;;
      resource_list <- get response (lit "resourceList") (PyList []) ;;
      resources <- iter resource_list ;;
      for_each resource_body resources available_slots.

End Parser.

(* ===================================================================== *)
(** ** The outside world *)
(* ===================================================================== *)

(** Configuration constants (lines 22-25). *)
Definition REQUEST_TIMEOUT : nat := 10.
Definition DELAY_BETWEEN_REQUESTS : nat := 3.
Definition MAX_RETRIES : nat := 3.
Definition RETRY_DELAY : nat := 20.

(** The facilities to check (lines 12-19). *)
Definition FACILITIES : list pystr :=
  [ lit "teckgheecc_BADMINTONCOURTS";
    lit "BidadariCC_BADMINTONCOURTS";
    lit "kallangcc_BADMINTONCOURTS";
    lit "braddellheightscc_BADMINTONCOURTS";
    lit "canberracc_BADMINTONCOURTS";
    lit "potongpasircc_BADMINTONCOURTS" ].

(** A [datetime], to the minute. *)
Record datetime := mkDate {
  year : nat;
  month : nat;
  day : nat;
  hour : nat;
  minute : nat
}.

(** What the script does to the world, in order. *)
Inductive event :=
| Request (facility date_str : pystr)        (* requests.get on BASE_URL *)
| Sleep (seconds : nat)                      (* time.sleep *)
| Post (bot_token chat_id text : pystr)      (* requests.post to the chat API *)
| SaveJson (filename : pystr) (output : aggregate). (* json.dump to a file *)

Definition history := list event.

(** Outcome of [requests.get], [raise_for_status] and [response.json()]:
    one of them raises a [RequestException] (connection error, timeout,
    HTTP error status, and a body that is not JSON where the library
    reports it as one), or one of them raises another exception (a body
    that is not JSON is a [ValueError] with older versions of the
    library), or the body decodes. *)
Inductive http_outcome :=
| RequestException
| OtherException (e : pyexc)
| Body (data : pyval).

(** The environment of one run.  Each oracle sees everything the script has
    done so far, so an answer may depend on time and on earlier calls. *)
Record env := mkEnv {
  api : history -> pystr -> pystr -> http_outcome;
  now : history -> datetime;
  chat_api : history -> pystr -> bool;   (* does this post succeed? *)
  TELEGRAM_BOT_TOKEN : option pystr;     (* os.environ.get(...) *)
  TELEGRAM_CHAT_ID : option pystr;
  repr_other : pyval -> pystr            (* str() of floats, lists and dicts *)
}.

(** Computations that act on the world and may raise. *)
Definition M (A : Type) := history -> res A * history.

Definition ret {A} (a : A) : M A := fun h => (Ok a, h).

Definition raise {A} (e : pyexc) : M A := fun h => (Raise e, h).

Definition bind {A B} (m : M A) (k : A -> M B) : M B :=
  fun h => match m h with
           | (Ok a, h') => k a h'
           | (Raise e, h') => (Raise e, h')
           end.

Definition lift {A} (r : res A) : M A := fun h => (r, h).

Definition emit (ev : event) : M unit := fun h => (Ok tt, h ++ [ev]).

Definition sleep (seconds : nat) : M unit := emit (Sleep seconds).

Declare Scope world_scope.
Delimit Scope world_scope with world.
Notation "x <- m ;; k" := (bind m (fun x => k))
  (at level 61, m at next level, right associativity) : world_scope.
Notation "m ;;; k" := (bind m (fun _ => k))
  (at level 61, right associativity) : world_scope.

(* ===================================================================== *)
(** ** Dates *)
(* ===================================================================== *)

Definition digit (n : nat) : pychar := N.of_nat (48 + n mod 10).

Definition two_digits (n : nat) : pystr := [digit (n / 10); digit n].

Definition four_digits (n : nat) : pystr :=
  [digit (n / 1000); digit (n / 100); digit (n / 10); digit n].

(** [strftime("%d/%m/%Y")]. *)
Definition strftime_dmy (d : datetime) : pystr :=
  two_digits (day d) ++ lit "/" ++ two_digits (month d) ++ lit "/"
  ++ four_digits (year d).

(** [strftime('%d/%m/%Y %H:%M')]. *)
Definition strftime_dmy_hm (d : datetime) : pystr :=
  strftime_dmy d ++ lit " " ++ two_digits (hour d) ++ lit ":"
  ++ two_digits (minute d).

Definition is_leap (y : nat) : bool :=
  ((y mod 4 =? 0) && negb (y mod 100 =? 0)) || (y mod 400 =? 0).

Definition days_in_month (y m : nat) : nat :=
  match m with
  | 2 => if is_leap y then 29 else 28
  | 4 | 6 | 9 | 11 => 30
  | _ => 31
  end.

(** [d + timedelta(days=1)]. *)
Definition next_day (d : datetime) : datetime :=
  if day d <? days_in_month (year d) (month d)
  then mkDate (year d) (month d) (S (day d)) (hour d) (minute d)
  else if month d <? 12
  then mkDate (year d) (S (month d)) 1 (hour d) (minute d)
  else mkDate (S (year d)) 1 1 (hour d) (minute d).

(* ===================================================================== *)
(** ** Retrying poller *)
(* ===================================================================== *)

(** The condition of line 91. *)
Definition status_rejected (response_status : pyval) : bool :=
  (negb (eq_int response_status 200) && negb (eq_str response_status (lit "200")))
  && (negb (eq_int response_status 2008)
      && negb (eq_str response_status (lit "2008"))).

(** [get_facility_slots(facility, date_str, retry_count)], lines 60-111.
    The result is the decoded payload, or [PyNone] after the last attempt.
    The recursion ends because [retry_count] grows up to [MAX_RETRIES]. *)
Equations? get_facility_slots (E : env) (facility date_str : pystr)
  (retry_count : nat) (h : history) : res pyval * history
  by wf (MAX_RETRIES - retry_count) lt :=
get_facility_slots E facility date_str retry_count h
  with api E h facility date_str => {
  | RequestException with lt_dec retry_count MAX_RETRIES => {
    | left _ =>
        get_facility_slots E facility date_str (S retry_count)
          (h ++ [Request facility date_str] ++ [Sleep RETRY_DELAY])
    | right _ => (Ok PyNone, h ++ [Request facility date_str]) }
  | OtherException e => (Raise e, h ++ [Request facility date_str])
  | Body data with get data (lit "responseStatusCode") PyNone => {
    | Raise e => (Raise e, h ++ [Request facility date_str])
    | Ok response_status with status_rejected response_status => {
      | false => (Ok data, h ++ [Request facility date_str])
      | true with lt_dec retry_count MAX_RETRIES => {
        | left _ =>
            get_facility_slots E facility date_str (S retry_count)
              (h ++ [Request facility date_str] ++ [Sleep RETRY_DELAY])
        | right _ => (Ok PyNone, h ++ [Request facility date_str]) } } } }.
Proof.
  all: change (MAX_RETRIES - S retry_count < MAX_RETRIES - retry_count); lia.
Qed.

(* ===================================================================== *)
(** ** Date-range driver *)
(* ===================================================================== *)

(** [all_available_slots[facility][date_str] = entry] on the nested
    [defaultdict]: a facility seen for the first time gets an empty dict. *)
Definition aggregate_set (all : aggregate) (facility date_str : pystr)
  (entry : DateEntry) : aggregate :=
  let dates := match dict_get all facility with
               | Some d => d
               | None => []
               end in
  dict_set all facility (dict_set dates date_str entry).

(** The variables of the [while] loop of lines 175-217. *)
Record loop_state := mkLoop {
  current_date : datetime;
  dates_checked : nat;
  all_available_slots : aggregate
}.

Inductive control := Break | Continue.

Definition is_none (v : pyval) : bool :=
  match v with PyNone => true | _ => false end.

Definition nonempty {A} (l : list A) : bool :=
  match l with [] => false | _ => true end.

Section Driver.
Local Open Scope world_scope.
Variable E : env.

(** One pass through the body of the [while True] loop. *)
Definition loop_body (facility : pystr) (st : loop_state)
  : M (control * loop_state) :=
  let date_str := strftime_dmy (current_date st) in
  data <- get_facility_slots E facility date_str 0 ;;
  if is_none data then ret (Break, st)
  else
    status_code <- lift (get data (lit "responseStatusCode") PyNone) ;;
    available_slots <- lift (extract_available_slots data) ;;
    all <- (if nonempty available_slots then
              r1 <- lift (get data (lit "response") (PyDict [])) ;;
              division <- lift (get r1 (lit "outletDivison") (PyStr [])) ;;
              r2 <- lift (get data (lit "response") (PyDict [])) ;;
              price_info <- lift (get r2 (lit "price") (PyDict [])) ;;
              ret (aggregate_set (all_available_slots st) facility date_str
                     (mkEntry available_slots division price_info))
            else ret (all_available_slots st)) ;;
    let checked := dates_checked st + 1 in
    if eq_str status_code (lit "2008") || eq_int status_code 2008
    then ret (Break, mkLoop (current_date st) checked all)
    else
      let tomorrow := next_day (current_date st) in
      if 5 <? checked
      then ret (Break, mkLoop tomorrow checked all)
      else sleep DELAY_BETWEEN_REQUESTS ;;;
           ret (Continue, mkLoop tomorrow checked all).

(** The [while True] loop for one facility, from a given loop state; the
    result is the state of the loop variables when the loop is left. *)
Equations? check_dates (facility : pystr) (st : loop_state) (h : history)
  : res loop_state * history by wf (6 - dates_checked st) lt :=
check_dates facility st h with inspect (loop_body facility st h) => {
  | exist _ (Raise e, h') _ => (Raise e, h')
  | exist _ (Ok (Break, st'), h') _ => (Ok st', h')
  | exist _ (Ok (Continue, st'), h') Hbody => check_dates facility st' h' }.
Proof.
  change (6 - dates_checked st' < 6 - dates_checked st).
  revert Hbody. unfold loop_body, bind, ret, lift, sleep, emit.
  destruct (get_facility_slots E facility _ 0 h) as [[data|e] h1];
    [|discriminate].
  destruct (is_none data); [discriminate|].
  destruct (get data _ PyNone) as [status_code|e]; [|discriminate].
  destruct (extract_available_slots data) as [available|e]; [|discriminate].
  destruct (nonempty available).
  - destruct (get data (lit "response") (PyDict [])) as [r|e]; [|discriminate].
    destruct (get r (lit "outletDivison") _) as [dv|e]; [|discriminate].
    destruct (get r (lit "price") _) as [pr|e]; [|discriminate].
    destruct (_ || _); [discriminate|].
    destruct (5 <? _) eqn:Hlim; [discriminate|].
    intros H; inversion H; subst.
    change (6 - (dates_checked st + 1) < 6 - dates_checked st).
    apply Nat.ltb_ge in Hlim. lia.
  - destruct (_ || _); [discriminate|].
    destruct (5 <? _) eqn:Hlim; [discriminate|].
    intros H; inversion H; subst.
    change (6 - (dates_checked st + 1) < 6 - dates_checked st).
    apply Nat.ltb_ge in Hlim. lia.
Qed.

(** Body of the [for facility in FACILITIES] loop (lines 167-221). *)
Definition facility_scan (facility : pystr) (all : aggregate) : M aggregate :=
  fun h =>
    (st <- check_dates facility (mkLoop (now E h) 0 all) ;;
     sleep (DELAY_BETWEEN_REQUESTS * 2) ;;;
     ret (all_available_slots st)) h.

Fixpoint for_facilities (facilities : list pystr) (all : aggregate)
  : M aggregate :=
  match facilities with
  | [] => ret all
  | facility :: rest =>
      all' <- facility_scan facility all ;; for_facilities rest all'
  end.

Definition check_facilities : M aggregate := for_facilities FACILITIES [].

End Driver.

(* ===================================================================== *)
(** ** Summary formatter *)
(* ===================================================================== *)

(** The non-ASCII characters of the message. *)
Definition BADMINTON : pychar := 0x1F3F8%N.
Definition CALENDAR : pychar := 0x1F4C5%N.
Definition BUILDING : pychar := 0x1F3E2%N.
Definition TEAR_OFF_CALENDAR : pychar := 0x1F4C6%N.
Definition STAR : pychar := 0x2B50%N.
Definition CROSS_MARK : pychar := 0x274C%N.
Definition CHECK_MARK : pychar := 0x2705%N.

Definition NL : pystr := [10%N].

(** [format_facility_name], lines 148-158. *)
Definition facility_names : list (pystr * pystr) :=
  [ (lit "teckgheecc_BADMINTONCOURTS", lit "Teck Ghee CC");
    (lit "BidadariCC_BADMINTONCOURTS", lit "Bidadari CC");
    (lit "kallangcc_BADMINTONCOURTS", lit "Kallang CC");
    (lit "braddellheightscc_BADMINTONCOURTS", lit "Braddell Heights CC");
    (lit "canberracc_BADMINTONCOURTS", lit "Canberra CC");
    (lit "potongpasircc_BADMINTONCOURTS", lit "Potong Pasir CC") ].

Definition format_facility_name (facility : pystr) : pystr :=
  match dict_get facility_names facility with
  | Some name => name
  | None => facility
  end.

(** [sorted(d.items())]: the keys of a dict are distinct, so the pairs are
    ordered by key alone. *)
Fixpoint insert_sorted {V} (kv : pystr * V) (l : list (pystr * V))
  : list (pystr * V) :=
  match l with
  | [] => [kv]
  | kv' :: l' => if str_leb (fst kv) (fst kv') then kv :: l
                 else kv' :: insert_sorted kv l'
  end.

Fixpoint sorted_items {V} (d : list (pystr * V)) : list (pystr * V) :=
  match d with
  | [] => []
  | kv :: d' => insert_sorted kv (sorted_items d')
  end.

(** ["\n".join(lines)]. *)
Fixpoint join (sep : pystr) (lines : list pystr) : pystr :=
  match lines with
  | [] => []
  | [l] => l
  | l :: rest => l ++ sep ++ join sep rest
  end.

Definition str_of_nat (n : nat) : pystr :=
  lit (NilZero.string_of_uint (Nat.to_uint n)).

Definition str_of_int (z : Z) : pystr :=
  lit (NilZero.string_of_int (Z.to_int z)).

(** The fixed lines of the summary and the headers (lines 228-264). *)
Definition title_line : pystr :=
  [BADMINTON] ++ lit " <b>OnePA Badminton Slots Available</b> " ++ [BADMINTON].

Definition checked_on_line (d : datetime) : pystr :=
  [CALENDAR] ++ lit " Checked on: " ++ strftime_dmy_hm d ++ NL.

Definition facility_header (facility_name : pystr) : pystr :=
  NL ++ lit "<b>" ++ [BUILDING] ++ lit " " ++ facility_name ++ lit "</b>".

Definition date_header (date_str : pystr) : pystr :=
  NL ++ [TEAR_OFF_CALENDAR] ++ lit " <b>" ++ date_str ++ lit "</b>".

Definition no_slots_line : pystr :=
  NL ++ [CROSS_MARK] ++ lit " <b>No available slots found</b>".

Definition total_line (total facilities : nat) : pystr :=
  NL ++ [CHECK_MARK] ++ lit " <b>Total: " ++ str_of_nat total
  ++ lit " slots across " ++ str_of_nat facilities ++ lit " facilities</b>".

Definition legend_line : pystr := NL ++ [STAR] ++ lit " = Peak hours".

Section Formatter.
Variable E : env.

(** [str(v)], as an f-string renders a value. *)
Definition str_of (v : pyval) : pystr :=
  match v with
  | PyNone => lit "None"
  | PyBool true => lit "True"
  | PyBool false => lit "False"
  | PyInt z => str_of_int z
  | PyStr s => s
  | _ => repr_other E v
  end.

(** [courts[slot['court']].append(slot)] on a [defaultdict(list)]. *)
Fixpoint courts_append (courts : list (pyval * list SlotRecord))
  (slot : SlotRecord) : list (pyval * list SlotRecord) :=
  match courts with
  | [] => [(court slot, [slot])]
  | (c, ss) :: rest => if key_eqb c (court slot) then (c, ss ++ [slot]) :: rest
                       else (c, ss) :: courts_append rest slot
  end.

Definition group_slot (slot : SlotRecord)
  (courts : list (pyval * list SlotRecord))
  : res (list (pyval * list SlotRecord)) :=
  if hashable (court slot) then Ok (courts_append courts slot)
  else Raise TypeError.

Definition slot_line (slot : SlotRecord) : pystr :=
  let peak := if truthy (isPeak slot) then [STAR] else lit "  " in
  lit "    " ++ peak ++ lit " " ++ str_of (time slot).

Definition court_lines (entry : pyval * list SlotRecord) : list pystr :=
  (lit "  " ++ str_of (fst entry) ++ lit ":") :: map slot_line (snd entry).

(** The local variables of [create_telegram_summary]. *)
Record summary_state := mkSummary {
  lines : list pystr;
  total_slots : nat;
  facilities_with_slots : nat
}.

(** Body of the loop over the dates of a facility (lines 240-257). *)
Definition date_body (item : pystr * DateEntry) (s : summary_state)
  : res summary_state :=
  let date_str := fst item in
  let date_slots := slots (snd item) in
  let lines1 := lines s ++ [date_header date_str] in
  rbind (for_each group_slot date_slots [])
    (fun courts =>
       Ok (mkSummary (lines1 ++ flat_map court_lines courts)
             (total_slots s + List.length date_slots)
             (facilities_with_slots s))).

(** Body of the loop over the facilities (lines 234-257). *)
Definition facility_body (item : pystr * dates_map) (s : summary_state)
  : res summary_state :=
  let facility := fst item in
  let dates := snd item in
  if nonempty dates then
    let facility_name := format_facility_name facility in
    let s1 := mkSummary (lines s ++ [facility_header facility_name])
                (total_slots s) (facilities_with_slots s + 1) in
    for_each date_body (sorted_items dates) s1
  else Ok s.

(** The list [lines] just before it is joined (line 266). *)
Definition summary_lines (all_slots : aggregate) (h : history)
  : res (list pystr) :=
  let s0 := mkSummary [title_line; checked_on_line (now E h)] 0 0 in
  rbind (for_each facility_body (sorted_items all_slots) s0)
    (fun s =>
       let last :=
         if total_slots s =? 0 then no_slots_line
         else total_line (total_slots s) (facilities_with_slots s) in
       Ok (lines s ++ [last] ++ [legend_line])).

Definition create_telegram_summary (all_slots : aggregate) : M pystr :=
  fun h => (rbind (summary_lines all_slots h) (fun ls => Ok (join NL ls)), h).

End Formatter.

(* ===================================================================== *)
(** ** Notifier *)
(* ===================================================================== *)

(** [range(0, stop, step)] for a positive [step]. *)
Definition range0 (stop step : nat) : list nat :=
  map (fun k => k * step) (seq 0 ((stop + step - 1) / step)).

(** The slice [s[i:j]]. *)
Definition slice {A} (s : list A) (i j : nat) : list A :=
  firstn (j - i) (skipn i s).

Definition max_length : nat := 4000.

(** The list [messages] of line 41. *)
Definition split_message (message : pystr) : list pystr :=
  map (fun i => slice message i (i + max_length))
      (range0 (List.length message) max_length).

Definition configured (v : option pystr) : bool :=
  match v with
  | Some (_ :: _) => true
  | _ => false
  end.

Section Notifier.
Local Open Scope world_scope.
Variable E : env.

(** The loop of lines 43-56: a post that fails ends the function. *)
Fixpoint send_each (bot_token chat_id : pystr) (messages : list pystr)
  : M bool :=
  match messages with
  | [] => ret true
  | msg :: rest =>
      fun h =>
        if chat_api E h msg
        then (emit (Post bot_token chat_id msg) ;;; sleep 1 ;;;
              send_each bot_token chat_id rest) h
        else (emit (Post bot_token chat_id msg) ;;; ret false) h
  end.

Definition send_telegram_message (message : pystr) : M bool :=
  match TELEGRAM_BOT_TOKEN E, TELEGRAM_CHAT_ID E with
  | Some bot_token, Some chat_id =>
      if configured (Some bot_token) && configured (Some chat_id)
      then send_each bot_token chat_id (split_message message)
      else ret false
  | _, _ => ret false
  end.

(** [save_results], lines 268-278. *)
Definition save_results (all_slots : aggregate) (filename : pystr) : M unit :=
  let output := map (fun item => (fst item, snd item)) all_slots in
  emit (SaveJson filename output).

End Notifier.

(* ===================================================================== *)
(** ** The response shape the specification expects *)
(* ===================================================================== *)

Definition is_dict (v : pyval) : bool :=
  match v with PyDict _ => true | _ => false end.

(** A field of an object, or a default when the field is missing. *)
Definition field (v : pyval) (k : pystr) (default : pyval) : pyval :=
  match v with
  | PyDict d => match dict_get d k with Some x => x | None => default end
  | _ => default
  end.

Definition absent (v : pyval) (k : pystr) : bool :=
  match v with
  | PyDict d => match dict_get d k with Some _ => false | None => true end
  | _ => true
  end.

(** The resource objects of a payload, and the slot objects of a resource. *)
Definition resources_of (payload : pyval) : list pyval :=
  match field (field payload (lit "response") PyNone) (lit "resourceList") PyNone with
  | PyList l => l
  | _ => []
  end.

Definition slots_of (resource : pyval) : list pyval :=
  match field resource (lit "slotList") PyNone with
  | PyList l => l
  | _ => []
  end.

(** A field that is missing, or a list whose items all satisfy [item_ok]. *)
Definition list_field (v : pyval) (k : pystr) (item_ok : pyval -> bool) : bool :=
  absent v k ||
  match field v k PyNone with
  | PyList l => forallb item_ok l
  | _ => false
  end.

Definition resource_shape (resource : pyval) : bool :=
  is_dict resource && list_field resource (lit "slotList") is_dict.

Definition response_shape (response : pyval) : bool :=
  is_dict response && list_field response (lit "resourceList") resource_shape.

(** The payloads of section 6 of the specification, any field of which may
    be missing, and the failure signal (or any other falsy value). *)
Definition payload_shape (payload : pyval) : bool :=
  negb (truthy payload) ||
  (is_dict payload &&
   (absent payload (lit "response")
    || response_shape (field payload (lit "response") PyNone))).

(** The record the specification describes for a slot of a resource. *)
Definition spec_record (resource slot : pyval) : SlotRecord :=
  mkSlot (field resource (lit "resourceName") (PyStr (lit "Unknown")))
         (field slot (lit "timeRangeName") PyNone)
         (field slot (lit "startTime") PyNone)
         (field slot (lit "endTime") PyNone)
         (field slot (lit "isPeak") (PyBool false)).

(** The records of the slots that [available] selects, resource by resource
    and slot by slot, in the order of the payload. *)
Definition select_slots (available : pyval -> bool) (payload : pyval)
  : list SlotRecord :=
  flat_map (fun resource =>
              map (spec_record resource) (filter available (slots_of resource)))
           (resources_of payload).


(** Availability as line 137 computes it on a slot object. *)
Definition truthy_available (slot : pyval) : bool :=
  truthy (field slot (lit "isAvailable") PyNone)
  || eq_str (field slot (lit "availabilityStatus") PyNone) (lit "Available").





(** A payload with one resource "Court 1" that has the single slot [slot]. *)
Definition one_slot_payload (slot : pyval) : pyval :=
  PyDict [ (lit "responseStatusCode", PyInt 200);
           (lit "response",
            PyDict [ (lit "resourceList",
                      PyList [ PyDict [ (lit "resourceName", PyStr (lit "Court 1"));
                                        (lit "slotList", PyList [slot]) ] ]) ]) ].

(* ===================================================================== *)
(** ** Definitions used to state the properties *)
(* ===================================================================== *)


(** A payload whose only resource has no name and whose slot has no peak
    flag and no time fields. *)
Definition bare_payload : pyval :=
  PyDict [ (lit "response",
            PyDict [ (lit "resourceList",
                      PyList [ PyDict [ (lit "slotList",
                                         PyList [ PyDict [ (lit "isAvailable", PyBool true) ] ]) ] ]) ]) ].

(** A payload whose 'response' field is there but is null. *)
Definition null_response_payload : pyval :=
  PyDict [ (lit "responseStatusCode", PyInt 200); (lit "response", PyNone) ].

Definition string_flag_slot : pyval :=
  PyDict [ (lit "isAvailable", PyStr (lit "false"));
           (lit "availabilityStatus", PyStr (lit "Booked")) ].

(** Membership of a status in the accepted set {200, "200", 2008, "2008"},
    with the equality of Python. *)
Definition accepted (status : pyval) : bool :=
  eq_int status 200 || eq_str status (lit "200")
  || eq_int status 2008 || eq_str status (lit "2008").

(** An attempt that does not succeed: the request fails, or the payload is
    an object whose status is outside the accepted set. *)
Definition attempt_fails (outcome : http_outcome) : bool :=
  match outcome with
  | RequestException => true
  | Body (PyDict d) =>
      negb (accepted (field (PyDict d) (lit "responseStatusCode") PyNone))
  | Body _ => false
  | OtherException _ => false
  end.

(** [k] failed attempts, each followed by the retry delay. *)
Definition retries (facility date_str : pystr) (k : nat) : history :=
  List.concat (repeat [Request facility date_str; Sleep RETRY_DELAY] k).

(** The status equals the sentinel 2008 or "2008". *)
Definition sentinel_status (status : pyval) : bool :=
  eq_int status 2008 || eq_str status (lit "2008").

(** No facility without a date, and no date without a slot. *)
Definition entry_ok (entry : DateEntry) : bool := nonempty (slots entry).

Definition dates_ok (dates : dates_map) : bool :=
  nonempty dates && forallb (fun item => entry_ok (snd item)) dates.

Definition aggregate_ok (all : aggregate) : bool :=
  forallb (fun item => dates_ok (snd item)) all.

(** The [k] consecutive days that start with [d]. *)
Fixpoint dates_from (d : datetime) (k : nat) : list datetime :=
  match k with
  | 0 => []
  | S k' => d :: dates_from (next_day d) k'
  end.

(** An event of the scan of a facility over some days: a sleep, or a
    request for that facility on one of these days. *)
Definition scan_event (facility : pystr) (days : list datetime) (ev : event)
  : Prop :=
  match ev with
  | Request f date_str => f = facility /\ In date_str (map strftime_dmy days)
  | Sleep _ => True
  | _ => False
  end.

(** The history after [k] date-checks in a row for one facility, the first
    on date [d]: each is one call of the poller, on consecutive days, with
    the request delay between two of them. *)
Fixpoint polls_trace (E : env) (facility : pystr) (d : datetime) (k : nat)
  (h : history) : history :=
  match k with
  | 0 => h
  | S k' =>
      let h1 := snd (get_facility_slots E facility (strftime_dmy d) 0 h) in
      match k' with
      | 0 => h1
      | S _ => polls_trace E facility (next_day d) k'
                 (h1 ++ [Sleep DELAY_BETWEEN_REQUESTS])
      end
  end.

(** The character [c] occurs in [s]. *)
Definition occurs (c : pychar) (s : pystr) : bool := existsb (N.eqb c) s.

(** What [send_each] does when every post succeeds. *)
Definition posts (bot_token chat_id : pystr) (messages : list pystr) : history :=
  flat_map (fun msg => [Post bot_token chat_id msg; Sleep 1]) messages.

(** The texts of the posts of a history, in order. *)
Definition posted (evs : history) : list pystr :=
  flat_map (fun ev => match ev with
                      | Post _ _ text => [text]
                      | _ => []
                      end) evs.

Definition KALLANG : pystr := lit "kallangcc_BADMINTONCOURTS".

(** The payload of the end-to-end scenario: one resource "Court 1" with one
    available peak slot. *)
Definition scenario_payload : pyval :=
  PyDict [ (lit "responseStatusCode", PyInt 200);
           (lit "response",
            PyDict [ (lit "resourceList",
                      PyList [ PyDict [ (lit "resourceName", PyStr (lit "Court 1"));
                                        (lit "slotList",
                                         PyList [ PyDict [ (lit "isAvailable", PyBool true);
                                                           (lit "timeRangeName", PyStr (lit "7:00 PM - 8:00 PM"));
                                                           (lit "isPeak", PyBool true) ] ]) ] ]) ]) ].

Definition sentinel_payload : pyval :=
  PyDict [ (lit "responseStatusCode", PyInt 2008) ].

(** On 1 January 2025 only Kallang has a slot, on that day; every other
    answer is the sentinel.  The chat credentials are configured and every
    post succeeds. *)
Definition scenario_env : env :=
  mkEnv (fun _ facility date_str =>
           if str_eqb facility KALLANG && str_eqb date_str (lit "01/01/2025")
           then Body scenario_payload else Body sentinel_payload)
        (fun _ => mkDate 2025 1 1 9 30)
        (fun _ _ => true)
        (Some (lit "token")) (Some (lit "42"))
        (fun _ => lit "?").

(** The API answers with status 200 and no slot, for ever. *)
Definition no_sentinel_env : env :=
  mkEnv (fun _ _ _ => Body (PyDict [ (lit "responseStatusCode", PyInt 200) ]))
        (fun _ => mkDate 2025 12 30 9 30)
        (fun _ _ => true) None None (fun _ => lit "?").


Definition scenario_aggregate : aggregate :=
  [ (KALLANG,
     [ (lit "01/01/2025",
        mkEntry [ mkSlot (PyStr (lit "Court 1")) (PyStr (lit "7:00 PM - 8:00 PM"))
                         PyNone PyNone (PyBool true) ]
                (PyStr []) (PyDict [])) ]) ].

Definition scenario_history : history :=
  Eval vm_compute in snd (check_facilities scenario_env []).

(* ===================================================================== *)
(** ** Definitions used to state further properties *)
(* ===================================================================== *)

(** The entry stored for a facility and a date, if there is one:
    [all_slots[facility][date_str]] without creating anything. *)
Definition aggregate_get (all : aggregate) (facility date_str : pystr)
  : option DateEntry :=
  match dict_get all facility with
  | Some dates => dict_get dates date_str
  | None => None
  end.

(** The number of requests in a history. *)
Definition request_count (evs : history) : nat :=
  List.length (filter (fun ev => match ev with
                                 | Request _ _ => true
                                 | _ => false
                                 end) evs).

(** The values a [for] loop can run over. *)
Definition iterable (v : pyval) : bool :=
  match v with
  | PyList _ | PyDict _ | PyStr _ => true
  | _ => false
  end.

(** An event of a scan of some facilities: a sleep, or a request for one of
    them. *)
Definition polling_event (facilities : list pystr) (ev : event) : Prop :=
  match ev with
  | Request f _ => In f facilities
  | Sleep _ => True
  | _ => False
  end.

(** The keys of a dict, in insertion order. *)
Definition keys {V} (d : list (pystr * V)) : list pystr := map fst d.

(** The keys of an aggregate are facilities of [facilities], no facility
    and no date of a facility occurs twice. *)
Definition aggregate_keys_ok (facilities : list pystr) (all : aggregate) : Prop :=
  incl (keys all) facilities
  /\ NoDup (keys all)
  /\ Forall (fun item => NoDup (keys (snd item))) all.

(** The number of slot records of an aggregate, and the number of its
    facilities that have at least one date. *)
Definition dates_slot_total (dates : dates_map) : nat :=
  list_sum (map (fun item => List.length (slots (snd item))) dates).

Definition slot_total (all : aggregate) : nat :=
  list_sum (map (fun item => dates_slot_total (snd item)) all).

Definition facilities_with_dates (all : aggregate) : nat :=
  list_sum (map (fun item : pystr * dates_map =>
                   if nonempty (snd item) then 1 else 0) all).

(** Every court of the aggregate can be a dict key. *)
Definition slots_hashable (found : list SlotRecord) : bool :=
  forallb (fun slot => hashable (court slot)) found.

Definition dates_hashable (dates : dates_map) : bool :=
  forallb (fun item => slots_hashable (slots (snd item))) dates.

Definition courts_hashable (all : aggregate) : bool :=
  forallb (fun item => dates_hashable (snd item)) all.

(** The summary state [s'] comes from [s] by adding lines, [dt] slots and
    [df] facilities. *)
Definition summary_grows (s s' : summary_state) (dt df : nat) : Prop :=
  (exists extra, lines s' = lines s ++ extra)
  /\ total_slots s' = total_slots s + dt
  /\ facilities_with_slots s' = facilities_with_slots s + df.

(** The loop state and the history after [n] passes through the loop body
    that all went on to the next date, if the loop gets that far. *)
Fixpoint after_passes (E : env) (facility : pystr) (n : nat)
  (st : loop_state) (h : history) : option (loop_state * history) :=
  match n with
  | 0 => Some (st, h)
  | S n' =>
      match loop_body E facility st h with
      | (Ok (Continue, st'), h') => after_passes E facility n' st' h'
      | _ => None
      end
  end.

(** Further sample inputs. *)

Definition DAY1 : pystr := lit "01/01/2025".


(** The API answers with a JSON list. *)
Definition list_body_env : env :=
  mkEnv (fun _ _ _ => Body (PyList []))
        (fun _ => mkDate 2025 1 1 9 30)
        (fun _ _ => true) None None (fun _ => lit "?").

(** The first request gives the scenario payload; every later request
    gives status 200 and a null 'response'. *)
Definition later_null_env : env :=
  mkEnv (fun h _ _ => if List.length h <? 1 then Body scenario_payload
                      else Body null_response_payload)
        (fun _ => mkDate 2025 1 1 9 30)
        (fun _ _ => true) None None (fun _ => lit "?").

(** The first request gives the scenario payload; every later request
    fails. *)
Definition later_failure_env : env :=
  mkEnv (fun h _ _ => if List.length h <? 1 then Body scenario_payload
                      else RequestException)
        (fun _ => mkDate 2025 1 1 9 30)
        (fun _ _ => true) None None (fun _ => lit "?").


(** The scenario payload with the sentinel status, as a string. *)
Definition sentinel_with_slots : pydict :=
  [ (lit "responseStatusCode", PyStr (lit "2008"));
    (lit "response",
     PyDict [ (lit "resourceList",
               PyList [ PyDict [ (lit "resourceName", PyStr (lit "Court 1"));
                                 (lit "slotList",
                                  PyList [ PyDict [ (lit "isAvailable", PyBool true);
                                                    (lit "timeRangeName", PyStr (lit "7:00 PM - 8:00 PM"));
                                                    (lit "isPeak", PyBool true) ] ]) ] ]);
              (lit "outletDivison", PyStr (lit "CC")) ]) ].

Definition sentinel_with_slots_env : env :=
  mkEnv (fun _ _ _ => Body (PyDict sentinel_with_slots))
        (fun _ => mkDate 2025 1 1 9 30)
        (fun _ _ => true) None None (fun _ => lit "?").

(** Every request fails. *)
Definition network_down_env : env :=
  mkEnv (fun _ _ _ => RequestException)
        (fun _ => mkDate 2025 1 1 9 30)
        (fun _ _ => true) None None (fun _ => lit "?").

(** The chat endpoint accepts the first post and refuses the next ones. *)
Definition one_post_env : env :=
  mkEnv (fun _ _ _ => RequestException)
        (fun _ => mkDate 2025 1 1 9 30)
        (fun h _ => List.length h <? 2)
        (Some (lit "token")) (Some (lit "42"))
        (fun _ => lit "?").

(** A payload with two resources: a well-formed one and a null. *)
Definition half_broken_payload : pydict :=
  [ (lit "response",
     PyDict [ (lit "resourceList",
               PyList [ PyDict [ (lit "resourceName", PyStr (lit "Court 1"));
                                 (lit "slotList",
                                  PyList [ PyDict [ (lit "isAvailable", PyBool true) ] ]) ];
                        PyNone ]) ]) ].

(** An aggregate whose only slot has a list as its court. *)
Definition list_court_slot : SlotRecord :=
  mkSlot (PyList [PyStr (lit "Court 1")]) (PyStr (lit "7:00 PM - 8:00 PM"))
         PyNone PyNone (PyBool false).

Definition list_court_aggregate : aggregate :=
  [ (KALLANG, [ (DAY1, mkEntry [list_court_slot] (PyStr []) (PyDict [])) ]) ].

(* ===================================================================== *)
(** * Properties *)
(* ===================================================================== *)

(** ** Parser *)

Lemma for_each_appends {A B} (body : A -> list B -> res (list B))
  (f : A -> list B) (items : list A) :
  (forall x acc, In x items -> body x acc = Ok (acc ++ f x)) ->
  forall acc, for_each body items acc = Ok (acc ++ flat_map f items).
Proof.
  induction items as [|x rest IH]; intros Hbody acc; simpl.
  - now rewrite app_nil_r.
  - rewrite (Hbody x acc (or_introl eq_refl)). simpl.
    rewrite IH by (intros; apply Hbody; now right).
    now rewrite app_assoc.
Qed.

Lemma slot_body_dict resource slot acc :
  is_dict slot = true ->
  slot_body (field resource (lit "resourceName") (PyStr (lit "Unknown"))) slot acc
  = Ok (acc ++ (if truthy_available slot then [spec_record resource slot] else [])).
Proof.
  destruct slot as [| | | | | |sd]; try discriminate. intros _.
  unfold slot_body, slot_is_available, truthy_available, spec_record; simpl.
  destruct (truthy _); simpl.
  - reflexivity.
  - destruct (eq_str _ _); simpl; [reflexivity | now rewrite app_nil_r].
Qed.

Lemma filter_as_flat_map {A B} (p : A -> bool) (f : A -> B) (l : list A) :
  flat_map (fun x => if p x then [f x] else []) l = map f (filter p l).
Proof.
  induction l as [|x l IH]; simpl; [reflexivity|].
  destruct (p x); simpl; now rewrite IH.
Qed.

Lemma resource_body_shape resource acc :
  resource_shape resource = true ->
  resource_body resource acc
  = Ok (acc ++ map (spec_record resource) (filter truthy_available (slots_of resource))).
Proof.
  unfold resource_shape, list_field, slots_of.
  destruct resource as [| | | | | |rd]; try discriminate. simpl.
  unfold resource_body. simpl.
  destruct (dict_get rd (lit "slotList")) as [sl|] eqn:Hsl; simpl.
  - destruct sl as [| | | | |l|]; try discriminate. simpl. intros Hall.
    rewrite for_each_appends
      with (f := fun s => if truthy_available s
                          then [spec_record (PyDict rd) s] else []).
    + now rewrite filter_as_flat_map.
    + intros s acc' Hin.
      rewrite forallb_forall in Hall.
      now apply (slot_body_dict (PyDict rd)), Hall.
  - intros _. now rewrite app_nil_r.
Qed.

Lemma extract_on_shape payload :
  payload_shape payload = true ->
  extract_available_slots payload = Ok (select_slots truthy_available payload).
Proof.
  unfold payload_shape, extract_available_slots, select_slots, resources_of.
  destruct (truthy payload) eqn:Ht; simpl.
  - destruct payload as [| | | | | |d]; try discriminate. simpl.
    destruct (dict_get d (lit "response")) as [r|] eqn:Hr; simpl;
      [|reflexivity].
    unfold response_shape, list_field.
    destruct r as [| | | | | |rd]; try discriminate. simpl.
    destruct (dict_get rd (lit "resourceList")) as [rl|] eqn:Hrl; simpl;
      [|reflexivity].
    destruct rl as [| | | | |l|]; try discriminate. simpl. intros Hall.
    rewrite forallb_forall in Hall.
    apply (for_each_appends resource_body
             (fun r => map (spec_record r) (filter truthy_available (slots_of r)))).
    intros r acc Hin. now apply resource_body_shape, Hall.
  - intros _.
    destruct payload as [|b|z|f|s|l|d]; try reflexivity.
    destruct d; [reflexivity|discriminate].
Qed.








Lemma in_select_slots available payload resource slot :
  In resource (resources_of payload) -> In slot (slots_of resource) ->
  available slot = true ->
  In (spec_record resource slot) (select_slots available payload).
Proof.
  intros Hr Hs Ha. unfold select_slots.
  apply in_flat_map. exists resource. split; [assumption|].
  apply in_map, filter_In. now split.
Qed.




(** C6, as the code has it.  The parser returns a list on every payload of
    the expected shape (any field of which may be missing) and on the
    failure signal; the list is empty when the payload is absent or has no
    'response' field; and every record it returns comes from a slot of a
    resource of the payload, with the court defaulting to "Unknown", the
    peak flag defaulting to false and the three time fields passed through
    (None when missing). *)
Theorem extract_total_on_expected_shape payload :
  payload_shape payload = true ->
  exists records,
    extract_available_slots payload = Ok records
    /\ (payload = PyNone \/ absent payload (lit "response") = true ->
        records = [])
    /\ Forall (fun record =>
                 exists resource slot,
                   In resource (resources_of payload)
                   /\ In slot (slots_of resource)
                   /\ court record
                      = field resource (lit "resourceName") (PyStr (lit "Unknown"))
                   /\ isPeak record = field slot (lit "isPeak") (PyBool false)
                   /\ time record = field slot (lit "timeRangeName") PyNone
                   /\ startTime record = field slot (lit "startTime") PyNone
                   /\ endTime record = field slot (lit "endTime") PyNone)
              records.
Proof.
  intros Hshape. exists (select_slots truthy_available payload).
  split; [now apply extract_on_shape | split].
  - unfold select_slots, resources_of, absent, field.
    intros [-> | Habs]; [reflexivity|].
    destruct payload as [| | | | | |d]; try reflexivity.
    destruct (dict_get d (lit "response")); [discriminate | reflexivity].
  - apply Forall_forall. intros record Hin.
    unfold select_slots in Hin. apply in_flat_map in Hin.
    destruct Hin as (resource & Hr & Hin).
    apply in_map_iff in Hin. destruct Hin as (slot & <- & Hs).
    apply filter_In in Hs. exists resource, slot. simpl. tauto.
Qed.

Lemma extract_total_on_expected_shape_witness :
  payload_shape bare_payload = true
  /\ extract_available_slots bare_payload
     = Ok [mkSlot (PyStr (lit "Unknown")) PyNone PyNone PyNone (PyBool false)]
  /\ exists records, extract_available_slots bare_payload = Ok records.
Proof.
  split; [reflexivity | split; [reflexivity|]].
  destruct (extract_total_on_expected_shape bare_payload eq_refl)
    as (records & Hok & _).
  exists records. exact Hok.
Defined.

(** C6 as stated fails: on a decoded payload whose 'response' is null the
    parser raises [AttributeError] and returns no list. *)
Lemma extract_raises_on_null_response :
  extract_available_slots null_response_payload = Raise AttributeError
  /\ ~ (exists records,
           extract_available_slots null_response_payload = Ok records).
Proof.
  split; [reflexivity|].
  intros [records H]. discriminate H.
Qed.

(** C10. The availability test is the truth value of [isAvailable]: on a
    payload of the expected shape, a slot whose flag holds any truthy value
    is included whatever its status is.  In particular the string "false"
    and the integer 1 select a slot whose status is "Booked". *)
Theorem extract_uses_truthiness :
  (forall payload resource slot,
      payload_shape payload = true ->
      In resource (resources_of payload) ->
      In slot (slots_of resource) ->
      truthy (field slot (lit "isAvailable") PyNone) = true ->
      exists records,
        extract_available_slots payload = Ok records
        /\ In (spec_record resource slot) records)
  /\ extract_available_slots
       (one_slot_payload
          (PyDict [ (lit "isAvailable", PyStr (lit "false"));
                    (lit "availabilityStatus", PyStr (lit "Booked")) ]))
     = Ok [mkSlot (PyStr (lit "Court 1")) PyNone PyNone PyNone (PyBool false)]
  /\ extract_available_slots
       (one_slot_payload
          (PyDict [ (lit "isAvailable", PyInt 1);
                    (lit "availabilityStatus", PyStr (lit "Booked")) ]))
     = Ok [mkSlot (PyStr (lit "Court 1")) PyNone PyNone PyNone (PyBool false)].
Proof.
  split; [|split; reflexivity].
  intros payload resource slot Hshape Hr Hs Htruthy.
  exists (select_slots truthy_available payload).
  split; [now apply extract_on_shape|].
  apply in_select_slots; try assumption.
  unfold truthy_available. now rewrite Htruthy.
Qed.

Lemma extract_uses_truthiness_witness :
  exists records,
    extract_available_slots (one_slot_payload string_flag_slot) = Ok records
    /\ In (mkSlot (PyStr (lit "Court 1")) PyNone PyNone PyNone (PyBool false))
          records.
Proof.
  apply (proj1 extract_uses_truthiness (one_slot_payload string_flag_slot)
           (PyDict [ (lit "resourceName", PyStr (lit "Court 1"));
                     (lit "slotList", PyList [string_flag_slot]) ])
           string_flag_slot).
  - reflexivity.
  - left. reflexivity.
  - left. reflexivity.
  - reflexivity.
Defined.

(** ** Retrying poller *)

Lemma status_rejected_accepted status :
  status_rejected status = negb (accepted status).
Proof.
  unfold status_rejected, accepted.
  destruct (eq_int status 200), (eq_str status (lit "200")),
    (eq_int status 2008), (eq_str status (lit "2008")); reflexivity.
Qed.

(** The poller, one attempt at a time. *)
Lemma get_facility_slots_step E facility date_str retry_count h :
  get_facility_slots E facility date_str retry_count h =
  let h1 := h ++ [Request facility date_str] in
  let again :=
    if retry_count <? MAX_RETRIES
    then get_facility_slots E facility date_str (S retry_count)
           (h ++ [Request facility date_str; Sleep RETRY_DELAY])
    else (Ok PyNone, h1) in
  match api E h facility date_str with
  | RequestException => again
  | OtherException e => (Raise e, h1)
  | Body data =>
      match get data (lit "responseStatusCode") PyNone with
      | Raise e => (Raise e, h1)
      | Ok response_status =>
          if status_rejected response_status then again else (Ok data, h1)
      end
  end.
Proof.
  rewrite get_facility_slots_equation_1. cbv zeta.
  destruct (api E h facility date_str) as [|exc|data]; simpl.
  - destruct (lt_dec retry_count MAX_RETRIES) as [Hlt|Hge]; simpl.
    + apply Nat.ltb_lt in Hlt. now rewrite Hlt.
    + apply Nat.ltb_nlt in Hge. now rewrite Hge.
  - reflexivity.
  - destruct (get data (lit "responseStatusCode") PyNone) as [rs|e]; simpl;
      [|reflexivity].
    destruct (status_rejected rs); simpl; [|reflexivity].
    destruct (lt_dec retry_count MAX_RETRIES) as [Hlt|Hge]; simpl.
    + apply Nat.ltb_lt in Hlt. now rewrite Hlt.
    + apply Nat.ltb_nlt in Hge. now rewrite Hge.
Qed.

Lemma failed_attempt E facility date_str retry_count h :
  attempt_fails (api E h facility date_str) = true ->
  get_facility_slots E facility date_str retry_count h =
  if retry_count <? MAX_RETRIES
  then get_facility_slots E facility date_str (S retry_count)
         (h ++ [Request facility date_str; Sleep RETRY_DELAY])
  else (Ok PyNone, h ++ [Request facility date_str]).
Proof.
  intros Hfail. rewrite get_facility_slots_step. cbv zeta.
  destruct (api E h facility date_str) as [|exc|data];
    [reflexivity | discriminate |].
  destruct data as [| | | | | |d]; try discriminate.
  simpl in *. rewrite status_rejected_accepted.
  now rewrite Hfail.
Qed.

Lemma poller_gives_up E facility date_str n :
  forall retry_count h,
    retry_count + n = MAX_RETRIES ->
    (forall k, k <= n ->
       attempt_fails (api E (h ++ retries facility date_str k) facility date_str)
       = true) ->
    get_facility_slots E facility date_str retry_count h
    = (Ok PyNone,
       h ++ retries facility date_str n ++ [Request facility date_str]).
Proof.
  induction n as [|n IH]; intros retry_count h Hsum Hfail.
  - rewrite failed_attempt.
    + replace (retry_count <? MAX_RETRIES) with false
        by (symmetry; apply Nat.ltb_ge; lia).
      reflexivity.
    + specialize (Hfail 0 (le_n 0)). unfold retries in Hfail; simpl in Hfail.
      now rewrite app_nil_r in Hfail.
  - rewrite failed_attempt.
    + replace (retry_count <? MAX_RETRIES) with true
        by (symmetry; apply Nat.ltb_lt; lia).
      rewrite IH.
      * rewrite <- app_assoc. reflexivity.
      * lia.
      * intros k Hk. rewrite <- app_assoc. apply (Hfail (S k)). lia.
    + specialize (Hfail 0 (Nat.le_0_l _)). unfold retries in Hfail;
        simpl in Hfail. now rewrite app_nil_r in Hfail.
Qed.

(** Whatever the API answers, a poll is a number of failed attempts, at most
    [MAX_RETRIES], and one last attempt. *)
Lemma poller_trace_shape E facility date_str n :
  forall retry_count h,
    retry_count + n = MAX_RETRIES ->
    exists k,
      k <= n
      /\ snd (get_facility_slots E facility date_str retry_count h)
         = h ++ retries facility date_str k ++ [Request facility date_str].
Proof.
  induction n as [|n IH]; intros retry_count h Hsum;
    rewrite get_facility_slots_step; cbv zeta.
  - replace (retry_count <? MAX_RETRIES) with false
      by (symmetry; apply Nat.ltb_ge; lia).
    exists 0. split; [lia|].
    destruct (api E h facility date_str) as [|exc|data];
      [reflexivity | reflexivity |].
    destruct (get data _ PyNone) as [rs|e]; [|reflexivity].
    destruct (status_rejected rs); reflexivity.
  - replace (retry_count <? MAX_RETRIES) with true
      by (symmetry; apply Nat.ltb_lt; lia).
    destruct (IH (S retry_count)
                 (h ++ [Request facility date_str; Sleep RETRY_DELAY]))
      as (k & Hk & Htrace); [lia|].
    assert (Hagain : exists k',
               k' <= S n
               /\ snd (get_facility_slots E facility date_str (S retry_count)
                         (h ++ [Request facility date_str; Sleep RETRY_DELAY]))
                  = h ++ retries facility date_str k'
                      ++ [Request facility date_str]).
    { exists (S k). split; [lia|]. rewrite Htrace.
      now rewrite <- app_assoc. }
    assert (Hnow : exists k',
               k' <= S n
               /\ h ++ [Request facility date_str]
                  = h ++ retries facility date_str k'
                      ++ [Request facility date_str]).
    { exists 0. split; [lia | reflexivity]. }
    destruct (api E h facility date_str) as [|exc|data];
      [exact Hagain | exact Hnow |].
    destruct (get data _ PyNone) as [rs|e]; [|exact Hnow].
    destruct (status_rejected rs); [exact Hagain | exact Hnow].
Qed.

(** C2. When the payload of an attempt is an object whose status is in the
    accepted set, the poller returns that payload at once: the only thing
    it has done is the one request, with no sleep and no retry. *)
Theorem poller_returns_accepted_payload E facility date_str h d :
  api E h facility date_str = Body (PyDict d) ->
  accepted (field (PyDict d) (lit "responseStatusCode") PyNone) = true ->
  get_facility_slots E facility date_str 0 h
  = (Ok (PyDict d), h ++ [Request facility date_str]).
Proof.
  intros Hbody Hacc. rewrite get_facility_slots_step. cbv zeta.
  rewrite Hbody. simpl in *.
  rewrite status_rejected_accepted, Hacc. reflexivity.
Qed.



(** ** Date-range driver *)

Lemma dict_set_nonempty {V} (d : list (pystr * V)) k v :
  nonempty (dict_set d k v) = true.
Proof.
  destruct d as [|[k' v'] d']; simpl; [reflexivity|].
  destruct (str_eqb k' k); reflexivity.
Qed.

Lemma dict_set_forallb {V} (P : V -> bool) (d : list (pystr * V)) k v :
  forallb (fun item => P (snd item)) d = true -> P v = true ->
  forallb (fun item => P (snd item)) (dict_set d k v) = true.
Proof.
  intros Hd Hv. induction d as [|[k' v'] d' IH]; simpl in *.
  - now rewrite Hv.
  - apply andb_true_iff in Hd. destruct Hd as [Hv' Hd'].
    destruct (str_eqb k' k); simpl.
    + now rewrite Hv, Hd'.
    + now rewrite Hv', IH.
Qed.

Lemma dict_get_forallb {V} (P : V -> bool) (d : list (pystr * V)) k v :
  forallb (fun item => P (snd item)) d = true -> dict_get d k = Some v ->
  P v = true.
Proof.
  induction d as [|[k' v'] d' IH]; simpl; [discriminate|].
  intros Hd Hget. apply andb_true_iff in Hd. destruct Hd as [Hv' Hd'].
  destruct (str_eqb k' k).
  - now inversion Hget; subst.
  - now apply IH.
Qed.

Lemma aggregate_set_ok all facility date_str entry :
  aggregate_ok all = true -> entry_ok entry = true ->
  aggregate_ok (aggregate_set all facility date_str entry) = true.
Proof.
  unfold aggregate_ok, aggregate_set. intros Hall Hentry.
  apply dict_set_forallb; [assumption|].
  unfold dates_ok. rewrite dict_set_nonempty. simpl.
  apply (dict_set_forallb entry_ok); [|assumption].
  destruct (dict_get all facility) as [dates|] eqn:Hget; [|reflexivity].
  apply (dict_get_forallb dates_ok _ _ Hall) in Hget.
  unfold dates_ok in Hget. now apply andb_true_iff in Hget.
Qed.

Section DriverFacts.
Variable E : env.

(** What one pass through the loop body does, by the way it ends. *)
Lemma loop_body_inv facility st h :
  let poll := get_facility_slots E facility (strftime_dmy (current_date st)) 0 h in
  match loop_body E facility st h with
  | (Raise _, h') => h' = snd poll
  | (Ok (Break, st'), h') =>
      h' = snd poll
      /\ (aggregate_ok (all_available_slots st) = true ->
          aggregate_ok (all_available_slots st') = true)
  | (Ok (Continue, st'), h') =>
      h' = snd poll ++ [Sleep DELAY_BETWEEN_REQUESTS]
      /\ current_date st' = next_day (current_date st)
      /\ dates_checked st' = dates_checked st + 1
      /\ dates_checked st' <= 5
      /\ (aggregate_ok (all_available_slots st) = true ->
          aggregate_ok (all_available_slots st') = true)
      /\ exists data,
           fst poll = Ok data /\ data <> PyNone
           /\ sentinel_status (field data (lit "responseStatusCode") PyNone)
              = false
  end.
Proof.
  cbv zeta. unfold loop_body, bind, ret, lift, sleep, emit, sentinel_status.
  destruct (get_facility_slots E facility _ 0 h) as [[data|e] h1]; simpl;
    [|reflexivity].
  destruct data as [| | | | | |d]; simpl; try reflexivity; try tauto.
  destruct (extract_available_slots (PyDict d)) as [available|e]; simpl;
    [|reflexivity].
  set (status := match dict_get d (lit "responseStatusCode") with
                 | Some x => x
                 | None => PyNone
                 end).
  assert (Hkeep : forall all',
             (all' = all_available_slots st
              \/ exists division price_info,
                   nonempty available = true
                   /\ all' = aggregate_set (all_available_slots st) facility
                               (strftime_dmy (current_date st))
                               (mkEntry available division price_info)) ->
             aggregate_ok (all_available_slots st) = true ->
             aggregate_ok all' = true).
  { intros all' [-> | (dv & pr & Hne & ->)] Hok; [assumption|].
    now apply aggregate_set_ok. }
  destruct (nonempty available) eqn:Hne; simpl.
  - destruct (match dict_get d (lit "response") with
              | Some x => x
              | None => PyDict []
              end) as [| | | | | |r]; simpl; try reflexivity.
    destruct (eq_str status (lit "2008") || eq_int status 2008) eqn:Hs; simpl.
    + split; [reflexivity|]. apply Hkeep. right. eauto.
    + destruct (5 <? dates_checked st + 1) eqn:Hlim; simpl.
      * split; [reflexivity|]. apply Hkeep. right. eauto.
      * apply Nat.ltb_ge in Hlim.
        repeat split; try reflexivity; try assumption.
        -- apply Hkeep. right. eauto.
        -- exists (PyDict d). repeat split; try discriminate.
           now rewrite orb_comm.
  - destruct (eq_str status (lit "2008") || eq_int status 2008) eqn:Hs; simpl.
    + split; [reflexivity|]. apply Hkeep. now left.
    + destruct (5 <? dates_checked st + 1) eqn:Hlim; simpl.
      * split; [reflexivity|]. apply Hkeep. now left.
      * apply Nat.ltb_ge in Hlim.
        repeat split; try reflexivity; try assumption.
        -- apply Hkeep. now left.
        -- exists (PyDict d). repeat split; try discriminate.
           now rewrite orb_comm.
Qed.

(** The loop, one pass at a time. *)
Lemma check_dates_step facility st h :
  check_dates E facility st h =
  match loop_body E facility st h with
  | (Raise e, h') => (Raise e, h')
  | (Ok (Break, st'), h') => (Ok st', h')
  | (Ok (Continue, st'), h') => check_dates E facility st' h'
  end.
Proof.
  funelim (check_dates E facility st h);
    match goal with Hb : loop_body _ _ _ _ = _ |- _ => now rewrite Hb end.
Qed.

End DriverFacts.

Section DriverProperties.
Variable E : env.

Lemma check_dates_polls facility n :
  forall st h,
    6 - dates_checked st = n ->
    dates_checked st <= 5 ->
    exists k,
      1 <= k <= n
      /\ snd (check_dates E facility st h)
         = polls_trace E facility (current_date st) k h.
Proof.
  induction n as [|n IH]; intros st h Hn Hle; [lia|].
  rewrite check_dates_step.
  pose proof (loop_body_inv E facility st h) as Hinv. cbv zeta in Hinv.
  destruct (loop_body E facility st h) as [[[[|] st']|e] h'].
  - destruct Hinv as [-> _]. exists 1. split; [lia | reflexivity].
  - destruct Hinv as (-> & Hdate & Hdc & Hlim & _).
    destruct (IH st' (snd (get_facility_slots E facility
                             (strftime_dmy (current_date st)) 0 h)
                      ++ [Sleep DELAY_BETWEEN_REQUESTS]))
      as (k & Hk & Htrace); [lia | lia |].
    exists (S k). split; [lia|].
    rewrite Htrace, Hdate.
    destruct k as [|k]; [lia | reflexivity].
  - subst h'. exists 1. split; [lia | reflexivity].
Qed.

Lemma scan_event_incl facility days days' evs :
  incl days days' ->
  Forall (scan_event facility days) evs ->
  Forall (scan_event facility days') evs.
Proof.
  intros Hincl. apply Forall_impl. intros [f ds| | |]; simpl; try tauto.
  intros [Hf Hin]. split; [assumption|].
  apply in_map_iff in Hin. destruct Hin as (d & Hd & Hin).
  apply in_map_iff. exists d. split; [assumption | now apply Hincl].
Qed.

Lemma poll_events facility d h :
  exists evs,
    snd (get_facility_slots E facility (strftime_dmy d) 0 h) = h ++ evs
    /\ Forall (scan_event facility [d]) evs.
Proof.
  destruct (@poller_trace_shape E facility (strftime_dmy d) MAX_RETRIES 0 h
              eq_refl) as (k & _ & Htrace).
  exists (retries facility (strftime_dmy d) k ++ [Request facility (strftime_dmy d)]).
  split; [assumption|].
  apply Forall_app. split.
  - clear Htrace. induction k as [|k IH]; [constructor|].
    unfold retries. simpl. repeat constructor; simpl; auto.
  - repeat constructor; simpl; auto.
Qed.

Lemma polls_trace_events facility k :
  forall d h,
    exists evs,
      polls_trace E facility d k h = h ++ evs
      /\ Forall (scan_event facility (dates_from d k)) evs.
Proof.
  induction k as [|k IH]; intros d h.
  - exists []. split; [simpl; now rewrite app_nil_r | constructor].
  - destruct (poll_events facility d h) as (evs1 & Hpoll & Hevs1).
    assert (Hfirst : Forall (scan_event facility (dates_from d (S k))) evs1).
    { apply (@scan_event_incl facility [d]); [|assumption].
      intros x [<- | []]. now left. }
    destruct k as [|k].
    + exists evs1. split; assumption.
    + destruct (IH (next_day d)
                   (snd (get_facility_slots E facility (strftime_dmy d) 0 h)
                    ++ [Sleep DELAY_BETWEEN_REQUESTS]))
        as (evs2 & Hrest & Hevs2).
      exists (evs1 ++ [Sleep DELAY_BETWEEN_REQUESTS] ++ evs2). split.
      * change (polls_trace E facility d (S (S k)) h)
          with (polls_trace E facility (next_day d) (S k)
                  (snd (get_facility_slots E facility (strftime_dmy d) 0 h)
                   ++ [Sleep DELAY_BETWEEN_REQUESTS])).
        rewrite Hrest, Hpoll. now repeat rewrite <- app_assoc.
      * apply Forall_app. split; [assumption|].
        apply Forall_app. split; [repeat constructor|].
        apply (@scan_event_incl facility (dates_from (next_day d) (S k)));
          [|assumption].
        intros x Hx. now right.
Qed.

Lemma dates_from_incl k :
  forall d n, k <= n -> incl (dates_from d k) (dates_from d n).
Proof.
  induction k as [|k IH]; intros d n Hle x Hx; [destruct Hx|].
  destruct n as [|n]; [lia|]. simpl in *.
  destruct Hx as [<- | Hx]; [now left | right].
  apply (IH (next_day d) n); [lia | assumption].
Qed.

Lemma check_dates_keeps_ok facility n :
  forall st h st' h',
    6 - dates_checked st = n ->
    check_dates E facility st h = (Ok st', h') ->
    aggregate_ok (all_available_slots st) = true ->
    aggregate_ok (all_available_slots st') = true.
Proof.
  induction n as [|n IH]; intros st h st' h' Hn;
    rewrite check_dates_step;
    pose proof (loop_body_inv E facility st h) as Hinv; cbv zeta in Hinv;
    destruct (loop_body E facility st h) as [[[[|] st1]|e] h1];
    try discriminate.
  - destruct Hinv as [_ Hkeep]. intros H; inversion H; subst. exact Hkeep.
  - destruct Hinv as (_ & _ & Hdc & Hlim & _). lia.
  - destruct Hinv as [_ Hkeep]. intros H; inversion H; subst. exact Hkeep.
  - destruct Hinv as (_ & _ & Hdc & Hlim & Hkeep & _).
    intros Hrun Hok. apply (IH st1 h1 st' h'); [lia | assumption | auto].
Qed.

Lemma facility_scan_keeps_ok facility all h all' h' :
  facility_scan E facility all h = (Ok all', h') ->
  aggregate_ok all = true -> aggregate_ok all' = true.
Proof.
  unfold facility_scan, bind, ret, sleep, emit.
  destruct (check_dates E facility (mkLoop (now E h) 0 all) h)
    as [[st|e] h1] eqn:Hrun; [|discriminate].
  intros H; inversion H; subst.
  intros Hok. eapply check_dates_keeps_ok; [reflexivity | exact Hrun | exact Hok].
Qed.

Lemma for_facilities_keeps_ok facilities :
  forall all h all' h',
    for_facilities E facilities all h = (Ok all', h') ->
    aggregate_ok all = true -> aggregate_ok all' = true.
Proof.
  induction facilities as [|facility rest IH]; intros all h all' h'; simpl.
  - unfold ret. intros H; inversion H; subst. auto.
  - unfold bind.
    destruct (facility_scan E facility all h) as [[all1|e] h1] eqn:Hscan;
      [|discriminate].
    intros Hrest Hok. apply (IH all1 h1 all' h' Hrest).
    now apply (facility_scan_keeps_ok _ _ _ Hscan).
Qed.

Lemma save_results_output (all : aggregate) :
  map (fun item => (fst item, snd item)) all = all.
Proof.
  induction all as [|[facility dates] rest IH]; simpl; [reflexivity|].
  now rewrite IH.
Qed.

(** C4. Whatever the loop state is (so also when fewer than five days have
    been checked), if the poll of the current date gives the failure signal
    or a payload whose status equals 2008 or "2008", the loop is left with
    the history as that poll left it: no later date is requested. *)
Theorem scan_stops_at_sentinel_or_failure facility st h data h1 :
  get_facility_slots E facility (strftime_dmy (current_date st)) 0 h
  = (Ok data, h1) ->
  data = PyNone
  \/ sentinel_status (field data (lit "responseStatusCode") PyNone) = true ->
  snd (check_dates E facility st h) = h1
  /\ polls_trace E facility (current_date st) 1 h = h1.
Proof.
  intros Hpoll Hstop. split; [|simpl; now rewrite Hpoll].
  rewrite check_dates_step.
  pose proof (loop_body_inv E facility st h) as Hinv. cbv zeta in Hinv.
  rewrite Hpoll in Hinv. simpl in Hinv.
  destruct (loop_body E facility st h) as [[[[|] st']|e] h'].
  - now destruct Hinv.
  - destruct Hinv as (_ & _ & _ & _ & _ & data' & Heq & Hnone & Hsent).
    inversion Heq; subst data'.
    destruct Hstop as [-> | Hs]; [now elim Hnone | congruence].
  - assumption.
Qed.

(** C5. A facility scan always ends, and it consists of at least one and
    at most six date-checks, on today and the consecutive following days,
    whatever the API answers: all it does is sleep and request this
    facility for one of the six days that start today. *)
Theorem scan_checks_at_most_six_dates facility today all h :
  exists k evs,
    1 <= k <= 6
    /\ snd (check_dates E facility (mkLoop today 0 all) h)
       = polls_trace E facility today k h
    /\ snd (check_dates E facility (mkLoop today 0 all) h) = h ++ evs
    /\ Forall (scan_event facility (dates_from today 6)) evs.
Proof.
  destruct (@check_dates_polls facility 6 (mkLoop today 0 all) h eq_refl)
    as (k & Hk & Htrace); [simpl; lia|].
  destruct (polls_trace_events facility k today h) as (evs & Hevs & Hall).
  exists k, evs. simpl in Htrace.
  split; [assumption|]. split; [assumption|].
  split; [now rewrite Htrace|].
  apply (@scan_event_incl facility (dates_from today k)); [|assumption].
  apply dates_from_incl. lia.
Qed.

(** C9. In the aggregate [check_facilities] returns, every facility has at
    least one date and every date has at least one slot; [save_results]
    writes exactly that aggregate. *)
Theorem aggregate_has_no_empty_entry h all h' filename :
  check_facilities E h = (Ok all, h') ->
  aggregate_ok all = true
  /\ save_results all filename h' = (Ok tt, h' ++ [SaveJson filename all]).
Proof.
  intros Hrun. split.
  - now apply (for_facilities_keeps_ok _ _ _ Hrun).
  - unfold save_results, emit. now rewrite save_results_output.
Qed.

End DriverProperties.

(** ** Summary formatter *)

Lemma occurs_app c a b : occurs c (a ++ b) = occurs c a || occurs c b.
Proof. apply existsb_app. Qed.

Lemma occurs_prefix c p :
  forall s, is_prefix p s = true -> occurs c p = true -> occurs c s = true.
Proof.
  induction p as [|x p IH]; intros s; simpl; [discriminate|].
  destruct s as [|y s]; [discriminate|]. simpl.
  intros Hp Hc. apply andb_true_iff in Hp. destruct Hp as [Hxy Hp].
  apply N.eqb_eq in Hxy. subst y.
  destruct (N.eqb c x); [reflexivity|]. simpl in *. now apply IH.
Qed.

Lemma occurs_substring c p s :
  is_substring p s = true -> occurs c p = true -> occurs c s = true.
Proof.
  induction s as [|y s IH]; simpl.
  - rewrite orb_false_r. intros Hp Hc. exact (@occurs_prefix c p [] Hp Hc).
  - intros Hsub Hc. apply orb_true_iff in Hsub. destruct Hsub as [Hp|Hs].
    + exact (@occurs_prefix c p (y :: s) Hp Hc).
    + rewrite (IH Hs Hc). apply orb_true_r.
Qed.

Lemma digit_is_ascii n c : (128 <= c)%N -> N.eqb c (digit n) = false.
Proof.
  intros Hc. apply N.eqb_neq. unfold digit. intros ->.
  pose proof (Nat.mod_upper_bound n 10). lia.
Qed.

(** A date and time is written with ASCII characters only. *)
Lemma strftime_is_ascii d c :
  (128 <= c)%N -> occurs c (strftime_dmy_hm d) = false.
Proof.
  intros Hc.
  unfold strftime_dmy_hm, strftime_dmy, two_digits, four_digits.
  repeat rewrite occurs_app. unfold occurs. simpl.
  repeat rewrite (digit_is_ascii _ Hc).
  destruct c as [|p]; [lia|].
  do 7 (destruct p as [p|p|]; try reflexivity; try lia).
Qed.

(** C7. For the empty aggregate the message has four lines: the title,
    the time of the check, the line "No available slots found" and the
    legend.  That marker line is in the message and no facility header is,
    whatever the facility name. *)
Theorem summary_of_empty_aggregate E h :
  exists message,
    create_telegram_summary E [] h = (Ok message, h)
    /\ summary_lines E [] h
       = Ok [title_line; checked_on_line (now E h); no_slots_line; legend_line]
    /\ message
       = join NL [title_line; checked_on_line (now E h); no_slots_line;
                  legend_line]
    /\ is_substring no_slots_line message = true
    /\ (forall facility_name,
           is_substring (facility_header facility_name) message = false).
Proof.
  exists (join NL [title_line; checked_on_line (now E h); no_slots_line;
                   legend_line]).
  split; [reflexivity|]. split; [reflexivity|].
  split; [reflexivity|]. split.
  - assert (Hskip : forall pre post,
               is_substring no_slots_line (pre ++ no_slots_line ++ post) = true).
    { intros pre post. induction pre as [|x pre IH].
      - vm_compute. reflexivity.
      - change ((x :: pre) ++ no_slots_line ++ post)
          with (x :: (pre ++ no_slots_line ++ post)).
        cbn [is_substring]. rewrite IH. apply orb_true_r. }
    specialize (Hskip (title_line ++ NL ++ checked_on_line (now E h) ++ NL)
                      (NL ++ legend_line)).
    unfold join. repeat rewrite <- app_assoc in Hskip. exact Hskip.
  - intros facility_name.
    destruct (is_substring (facility_header facility_name) _) eqn:Hsub;
      [|reflexivity].
    apply (occurs_substring BUILDING) in Hsub.
    + revert Hsub. unfold join, checked_on_line.
      repeat rewrite occurs_app.
      rewrite strftime_is_ascii by (vm_compute; discriminate).
      vm_compute. discriminate.
    + unfold facility_header. repeat rewrite occurs_app.
      vm_compute. reflexivity.
Qed.

(** ** Notifier *)

Lemma slices_cover {A} (step : nat) (n : nat) :
  forall l : list A,
    List.length l <= n * step ->
    List.concat (map (fun i => slice l i (i + step))
                     (map (fun k => k * step) (seq 0 n))) = l.
Proof.
  induction n as [|n IH]; intros l Hlen.
  - destruct l; [reflexivity | simpl in Hlen; lia].
  - rewrite <- cons_seq, <- seq_shift. simpl.
    rewrite map_map, map_map.
    unfold slice at 1. simpl. rewrite Nat.sub_0_r.
    transitivity (firstn step l ++ skipn step l); [|apply firstn_skipn].
    f_equal.
    etransitivity; [|apply (IH (skipn step l))].
    + rewrite map_map. f_equal. apply map_ext. intros k.
      unfold slice. rewrite skipn_skipn.
      f_equal; [lia|]. f_equal. lia.
    + rewrite length_skipn. simpl in Hlen. lia.
Qed.

Lemma split_message_concat message :
  List.concat (split_message message) = message.
Proof.
  unfold split_message, range0. apply slices_cover.
  unfold max_length.
  pose proof (Nat.div_mod_eq (List.length message + 4000 - 1) 4000) as Hdiv.
  pose proof (Nat.mod_upper_bound (List.length message + 4000 - 1) 4000) as Hmod.
  lia.
Qed.

Lemma split_message_bound message :
  Forall (fun chunk => List.length chunk <= 4000) (split_message message).
Proof.
  apply Forall_forall. intros chunk Hin.
  unfold split_message in Hin. apply in_map_iff in Hin.
  destruct Hin as (i & <- & _). unfold slice.
  rewrite length_firstn. unfold max_length. lia.
Qed.

Lemma send_each_all_succeed E bot_token chat_id messages :
  (forall h text, chat_api E h text = true) ->
  forall h,
    send_each E bot_token chat_id messages h
    = (Ok true, h ++ posts bot_token chat_id messages).
Proof.
  intros Hok. induction messages as [|msg rest IH]; intros h; simpl.
  - unfold ret. now rewrite app_nil_r.
  - rewrite Hok. unfold bind, emit, sleep; simpl.
    rewrite IH. now repeat rewrite <- app_assoc.
Qed.

Lemma send_each_sends_prefix E bot_token chat_id messages :
  forall h,
    exists sent n,
      snd (send_each E bot_token chat_id messages h) = h ++ sent
      /\ posted sent = firstn n messages.
Proof.
  induction messages as [|msg rest IH]; intros h; simpl.
  - exists [], 0. split; [now rewrite app_nil_r | reflexivity].
  - destruct (chat_api E h msg); unfold bind, emit, sleep, ret; simpl.
    + destruct (IH ((h ++ [Post bot_token chat_id msg]) ++ [Sleep 1]))
        as (sent & n & Hsent & Hposted).
      exists ([Post bot_token chat_id msg; Sleep 1] ++ sent), (S n).
      split.
      * rewrite Hsent. now repeat rewrite <- app_assoc.
      * simpl. now rewrite Hposted.
    + exists [Post bot_token chat_id msg], 1. split; reflexivity.
Qed.

(** C8. The chunks of a message are contiguous, in order, and of at most
    4000 characters each: put end to end they give the message back.  The
    texts the notifier posts are, in order and one call each, the first
    chunks of the message; they are all the chunks, each followed by the
    one-second delay, when the credentials are configured and no post
    fails.  A message of 9000 characters gives 3 chunks. *)
Theorem notifier_sends_chunks_in_order E message h :
  List.concat (split_message message) = message
  /\ Forall (fun chunk => List.length chunk <= 4000) (split_message message)
  /\ (exists sent n,
         snd (send_telegram_message E message h) = h ++ sent
         /\ posted sent = firstn n (split_message message))
  /\ (forall bot_token chat_id,
         TELEGRAM_BOT_TOKEN E = Some bot_token ->
         TELEGRAM_CHAT_ID E = Some chat_id ->
         bot_token <> [] -> chat_id <> [] ->
         (forall h' text, chat_api E h' text = true) ->
         send_telegram_message E message h
         = (Ok true, h ++ posts bot_token chat_id (split_message message)))
  /\ (List.length message = 9000 -> List.length (split_message message) = 3).
Proof.
  split; [apply split_message_concat|].
  split; [apply split_message_bound|].
  split; [|split].
  - assert (Hidle : exists sent n,
               h = h ++ sent
               /\ posted sent = firstn n (split_message message)).
    { exists [], 0. split; [now rewrite app_nil_r | reflexivity]. }
    unfold send_telegram_message.
    destruct (TELEGRAM_BOT_TOKEN E) as [bot_token|]; [|exact Hidle].
    destruct (TELEGRAM_CHAT_ID E) as [chat_id|]; [|exact Hidle].
    destruct (configured (Some bot_token) && configured (Some chat_id));
      [|exact Hidle].
    apply send_each_sends_prefix.
  - intros bot_token chat_id Htoken Hchat Htok Hid Hok.
    unfold send_telegram_message. rewrite Htoken, Hchat.
    destruct bot_token; [congruence|]. destruct chat_id; [congruence|].
    simpl. now apply send_each_all_succeed.
  - intros Hlen. unfold split_message, range0.
    rewrite !length_map, length_seq, Hlen. reflexivity.
Qed.

(** ** Sample runs *)

Lemma poller_returns_accepted_payload_witness :
  get_facility_slots scenario_env KALLANG (lit "01/01/2025") 0 []
  = (Ok scenario_payload, [Request KALLANG (lit "01/01/2025")]).
Proof.
  apply (@poller_returns_accepted_payload scenario_env KALLANG
           (lit "01/01/2025") []); reflexivity.
Defined.


Lemma scan_stops_at_sentinel_or_failure_witness :
  snd (check_dates scenario_env (lit "teckgheecc_BADMINTONCOURTS")
         (mkLoop (mkDate 2025 1 1 9 30) 0 []) [])
  = [Request (lit "teckgheecc_BADMINTONCOURTS") (lit "01/01/2025")].
Proof.
  apply (@scan_stops_at_sentinel_or_failure scenario_env
           (lit "teckgheecc_BADMINTONCOURTS")
           (mkLoop (mkDate 2025 1 1 9 30) 0 []) [] sentinel_payload
           [Request (lit "teckgheecc_BADMINTONCOURTS") (lit "01/01/2025")]).
  - reflexivity.
  - right. reflexivity.
Defined.

(** Without a sentinel and without a failure the scan makes six date-checks,
    from 30/12/2025 to 04/01/2026, and stops. *)
Example scan_without_sentinel_checks_six_dates :
  check_dates no_sentinel_env KALLANG (mkLoop (mkDate 2025 12 30 9 30) 0 []) []
  = (Ok (mkLoop (mkDate 2026 1 5 9 30) 6 []),
     [ Request KALLANG (lit "30/12/2025"); Sleep 3;
       Request KALLANG (lit "31/12/2025"); Sleep 3;
       Request KALLANG (lit "01/01/2026"); Sleep 3;
       Request KALLANG (lit "02/01/2026"); Sleep 3;
       Request KALLANG (lit "03/01/2026"); Sleep 3;
       Request KALLANG (lit "04/01/2026") ]).
Proof. vm_compute. reflexivity. Qed.

Lemma notifier_sends_chunks_in_order_witness :
  send_telegram_message scenario_env (repeat 120%N 9000) []
  = (Ok true,
     [ Post (lit "token") (lit "42") (repeat 120%N 4000); Sleep 1;
       Post (lit "token") (lit "42") (repeat 120%N 4000); Sleep 1;
       Post (lit "token") (lit "42") (repeat 120%N 1000); Sleep 1 ]).
Proof.
  destruct (notifier_sends_chunks_in_order scenario_env (repeat 120%N 9000) [])
    as (_ & _ & _ & Hsend & _).
  rewrite (Hsend (lit "token") (lit "42") eq_refl eq_refl).
  - vm_compute. reflexivity.
  - discriminate.
  - discriminate.
  - reflexivity.
Defined.

Lemma aggregate_has_no_empty_entry_witness :
  check_facilities scenario_env [] = (Ok scenario_aggregate, scenario_history)
  /\ aggregate_ok scenario_aggregate = true
  /\ save_results scenario_aggregate (lit "available_slots.json")
       scenario_history
     = (Ok tt,
        scenario_history
        ++ [SaveJson (lit "available_slots.json") scenario_aggregate]).
Proof.
  split; [vm_compute; reflexivity|].
  apply (@aggregate_has_no_empty_entry scenario_env [] scenario_aggregate
           scenario_history (lit "available_slots.json")).
  vm_compute. reflexivity.
Defined.

(** The scenario of the specification, end to end: the summary names the
    facility, the date and the court, and marks the slot as peak. *)
Example scenario_summary :
  exists message,
    create_telegram_summary scenario_env scenario_aggregate scenario_history
    = (Ok message, scenario_history)
    /\ is_substring (lit "Kallang CC") message = true
    /\ is_substring (lit "01/01/2025") message = true
    /\ is_substring (lit "Court 1:") message = true
    /\ is_substring ([STAR] ++ lit " 7:00 PM - 8:00 PM") message = true.
Proof.
  eexists. split; [vm_compute; reflexivity|].
  repeat split; vm_compute; reflexivity.
Qed.

(* ===================================================================== *)
(** * Further properties *)
(* ===================================================================== *)

(** ** Strings and dicts *)

Lemma str_eqb_refl s : str_eqb s s = true.
Proof.
  induction s as [|c s IH]; simpl; [reflexivity|].
  now rewrite N.eqb_refl, IH.
Qed.

Lemma str_eqb_eq a : forall b, str_eqb a b = true -> a = b.
Proof.
  induction a as [|x a IH]; intros [|y b]; simpl; try discriminate;
    [reflexivity|].
  intros H. apply andb_true_iff in H. destruct H as [Hxy Hab].
  apply N.eqb_eq in Hxy. subst y. f_equal. now apply IH.
Qed.

Lemma str_eqb_neq a b : a <> b -> str_eqb a b = false.
Proof.
  intros Hne. destruct (str_eqb a b) eqn:H; [|reflexivity].
  now apply str_eqb_eq in H.
Qed.

Lemma dict_get_set_same {V} (d : list (pystr * V)) k v :
  dict_get (dict_set d k v) k = Some v.
Proof.
  induction d as [|[k' v'] d IH]; simpl.
  - now rewrite str_eqb_refl.
  - destruct (str_eqb k' k) eqn:Hk; simpl; now rewrite Hk.
Qed.

Lemma dict_get_set_other {V} (d : list (pystr * V)) k v k' :
  k' <> k -> dict_get (dict_set d k v) k' = dict_get d k'.
Proof.
  intros Hne. induction d as [|[k0 v0] d IH]; simpl.
  - now rewrite (str_eqb_neq (not_eq_sym Hne)).
  - destruct (str_eqb k0 k) eqn:Hk; simpl.
    + apply str_eqb_eq in Hk. subst k0.
      now rewrite (str_eqb_neq (not_eq_sym Hne)).
    + destruct (str_eqb k0 k'); [reflexivity | exact IH].
Qed.

(** ** Retrying poller *)

Lemma poller_result_origin E facility date_str n :
  forall retry_count h data h',
    retry_count + n = MAX_RETRIES ->
    get_facility_slots E facility date_str retry_count h = (Ok data, h') ->
    data = PyNone
    \/ exists before,
         h' = before ++ [Request facility date_str]
         /\ api E before facility date_str = Body data
         /\ is_dict data = true
         /\ accepted (field data (lit "responseStatusCode") PyNone) = true.
Proof.
  induction n as [|n IH]; intros retry_count h data h' Hsum;
    rewrite get_facility_slots_step; cbv zeta.
  - replace (retry_count <? MAX_RETRIES) with false
      by (symmetry; apply Nat.ltb_ge; lia).
    destruct (api E h facility date_str) as [|exc|body] eqn:Hapi.
    + intros H; inversion H; now left.
    + discriminate.
    + destruct body as [| | | | | |d]; simpl; try discriminate.
      rewrite status_rejected_accepted.
      destruct (accepted _) eqn:Hacc; simpl; intros H; inversion H; subst.
      * right. exists h. repeat split; assumption.
      * now left.
  - replace (retry_count <? MAX_RETRIES) with true
      by (symmetry; apply Nat.ltb_lt; lia).
    destruct (api E h facility date_str) as [|exc|body] eqn:Hapi.
    + apply IH. lia.
    + discriminate.
    + destruct body as [| | | | | |d]; simpl; try discriminate.
      rewrite status_rejected_accepted.
      destruct (accepted _) eqn:Hacc; simpl.
      * intros H; inversion H; subst.
        right. exists h. repeat split; assumption.
      * apply IH. lia.
Qed.


(** X1. Whatever the API answers, one call of the poller makes at most
    [MAX_RETRIES + 1] requests, all for the same facility and date, and
    sleeps [RETRY_DELAY] seconds between two of them and at no other time. *)
Theorem poller_makes_at_most_four_requests E facility date_str h :
  exists k,
    k <= MAX_RETRIES
    /\ snd (get_facility_slots E facility date_str 0 h)
       = h ++ retries facility date_str k ++ [Request facility date_str]
    /\ request_count (retries facility date_str k ++ [Request facility date_str])
       = k + 1.
Proof.
  destruct (@poller_trace_shape E facility date_str MAX_RETRIES 0 h eq_refl)
    as (k & Hk & Htrace).
  exists k. split; [assumption|]. split; [assumption|].
  clear. induction k as [|k IH]; [reflexivity|].
  unfold retries in *. simpl. unfold request_count in *. simpl.
  now rewrite IH.
Qed.

(** X2. A payload the poller returns is the object the API gave to the last
    request, and its status is in the accepted set: a result other than
    [None] never carries a rejected status. *)
Theorem poller_result_is_accepted E facility date_str h data h' :
  get_facility_slots E facility date_str 0 h = (Ok data, h') ->
  data <> PyNone ->
  exists before,
    h' = before ++ [Request facility date_str]
    /\ api E before facility date_str = Body data
    /\ is_dict data = true
    /\ accepted (field data (lit "responseStatusCode") PyNone) = true.
Proof.
  intros Hrun Hdata.
  destruct (@poller_result_origin E facility date_str MAX_RETRIES 0 h data h'
              eq_refl Hrun) as [Hnone | Hres]; [contradiction | exact Hres].
Qed.

(** X3. A body that decodes to anything but an object makes the poller
    raise [AttributeError] at once, whatever the retry count: the request
    is not retried and nothing is returned. *)
Theorem poller_raises_on_non_object_body E facility date_str retry_count h data :
  api E h facility date_str = Body data ->
  is_dict data = false ->
  get_facility_slots E facility date_str retry_count h
  = (Raise AttributeError, h ++ [Request facility date_str]).
Proof.
  intros Hbody Hdict. rewrite get_facility_slots_step. cbv zeta.
  rewrite Hbody. destruct data; try discriminate; reflexivity.
Qed.


(** ** Response parser *)

Lemma for_each_app {A B} (body : A -> B -> res B) (pre post : list A) :
  forall acc,
    for_each body (pre ++ post) acc
    = rbind (for_each body pre acc) (for_each body post).
Proof.
  induction pre as [|x pre IH]; intros acc; simpl; [reflexivity|].
  destruct (body x acc) as [acc'|e]; simpl; [apply IH | reflexivity].
Qed.

Lemma extract_response_is_object d found :
  extract_available_slots (PyDict d) = Ok found ->
  found <> [] ->
  exists rd, dict_get d (lit "response") = Some (PyDict rd).
Proof.
  unfold extract_available_slots.
  destruct d as [|kv d]; [simpl; intros H; inversion H; congruence|].
  remember (kv :: d) as d0. simpl. subst d0.
  destruct (dict_get (kv :: d) (lit "response")) as [r|]; simpl.
  - destruct r as [| | | | | |rd]; simpl; try discriminate.
    intros _ _. now exists rd.
  - intros H; inversion H; congruence.
Qed.

(** X5. When the payload has a 'response' field that is not an object
    (null, a number, a string, a list), the parser raises
    [AttributeError]: the default of an empty result is only for a missing
    field. *)
Theorem extract_raises_on_non_object_response d r :
  dict_get d (lit "response") = Some r ->
  is_dict r = false ->
  extract_available_slots (PyDict d) = Raise AttributeError.
Proof.
  intros Hget Hdict. unfold extract_available_slots.
  destruct d as [|kv d]; [discriminate|].
  remember (kv :: d) as d0. simpl. subst d0. rewrite Hget. simpl.
  destruct r; try discriminate; reflexivity.
Qed.

(** X6. When 'resourceList' is there but is not something a loop can run
    over (null, a boolean, a number), the parser raises [TypeError]. *)
Theorem extract_raises_on_non_iterable_resources d rd v :
  dict_get d (lit "response") = Some (PyDict rd) ->
  dict_get rd (lit "resourceList") = Some v ->
  iterable v = false ->
  extract_available_slots (PyDict d) = Raise TypeError.
Proof.
  intros Hget Hlist Hiter. unfold extract_available_slots.
  destruct d as [|kv d]; [discriminate|].
  remember (kv :: d) as d0. simpl. subst d0. rewrite Hget. simpl.
  rewrite Hlist. destruct v; try discriminate; reflexivity.
Qed.

(** X7. The parser gives all or nothing: when one resource of the list is
    not an object, it raises [AttributeError] even if the resources before
    it are well formed and have available slots, whose records are lost. *)
Theorem extract_aborts_on_malformed_resource d rd before bad after :
  dict_get d (lit "response") = Some (PyDict rd) ->
  dict_get rd (lit "resourceList") = Some (PyList (before ++ bad :: after)) ->
  forallb resource_shape before = true ->
  is_dict bad = false ->
  extract_available_slots (PyDict d) = Raise AttributeError.
Proof.
  intros Hget Hlist Hbefore Hbad. unfold extract_available_slots.
  destruct d as [|kv d]; [discriminate|].
  remember (kv :: d) as d0. simpl. subst d0. rewrite Hget. simpl.
  rewrite Hlist. simpl. rewrite for_each_app.
  rewrite (for_each_appends resource_body
             (fun r => map (spec_record r) (filter truthy_available (slots_of r)))).
  - simpl. unfold resource_body.
    destruct bad; try discriminate; reflexivity.
  - intros r acc Hin. apply resource_body_shape.
    rewrite forallb_forall in Hbefore. now apply Hbefore.
Qed.

(** ** Date-range driver *)

Lemma request_count_app a b :
  request_count (a ++ b) = request_count a + request_count b.
Proof. unfold request_count. now rewrite filter_app, length_app. Qed.

Lemma request_count_retries facility date_str k :
  request_count (retries facility date_str k) = k.
Proof.
  induction k as [|k IH]; [reflexivity|].
  unfold retries in *. simpl. unfold request_count in *. simpl.
  now rewrite IH.
Qed.

Lemma dict_set_keys {V} (d : list (pystr * V)) k v :
  keys (dict_set d k v) = keys d /\ In k (keys d)
  \/ keys (dict_set d k v) = keys d ++ [k] /\ ~ In k (keys d).
Proof.
  unfold keys. induction d as [|[k' v'] d IH]; simpl.
  - right. split; [reflexivity | tauto].
  - destruct (str_eqb k' k) eqn:Hk; simpl.
    + apply str_eqb_eq in Hk. subst k'. left. split; [reflexivity | now left].
    + assert (Hne : k' <> k)
        by (intros ->; rewrite str_eqb_refl in Hk; discriminate).
      destruct IH as [[-> Hin] | [-> Hnot]].
      * left. split; [reflexivity | now right].
      * right. split; [reflexivity | tauto].
Qed.

Lemma dict_set_nodup {V} (d : list (pystr * V)) k v :
  NoDup (keys d) -> NoDup (keys (dict_set d k v)).
Proof.
  intros Hnd. destruct (dict_set_keys d k v) as [[-> _] | [-> Hnot]];
    [assumption|].
  apply NoDup_app; [assumption | repeat constructor; simpl; tauto |].
  intros x Hx [<- | []]. contradiction.
Qed.

Lemma dict_set_Forall {V} (P : V -> Prop) (d : list (pystr * V)) k v :
  Forall (fun item => P (snd item)) d -> P v ->
  Forall (fun item => P (snd item)) (dict_set d k v).
Proof.
  intros Hd Hv. induction d as [|[k' v'] d IH]; simpl.
  - now repeat constructor.
  - inversion Hd; subst. destruct (str_eqb k' k); constructor; auto.
Qed.

Lemma dict_get_Forall {V} (P : V -> Prop) (d : list (pystr * V)) k v :
  Forall (fun item => P (snd item)) d -> dict_get d k = Some v -> P v.
Proof.
  induction d as [|[k' v'] d IH]; simpl; [discriminate|].
  intros Hd Hget. inversion Hd; subst.
  destruct (str_eqb k' k); [now inversion Hget; subst | now apply IH].
Qed.

Lemma aggregate_set_keys_ok facilities all facility date_str entry :
  In facility facilities ->
  aggregate_keys_ok facilities all ->
  aggregate_keys_ok facilities (aggregate_set all facility date_str entry).
Proof.
  intros Hin (Hincl & Hnd & Hdates). unfold aggregate_set. cbv zeta.
  assert (Hnew : NoDup (keys (dict_set match dict_get all facility with
                                       | Some d => d
                                       | None => []
                                       end date_str entry))).
  { apply dict_set_nodup.
    destruct (dict_get all facility) as [dates|] eqn:Hget; [|constructor].
    eapply (@dict_get_Forall _ (fun dates : dates_map => NoDup (keys dates)));
      eassumption. }
  set (v := dict_set _ date_str entry) in *.
  split; [|split].
  - destruct (dict_set_keys all facility v) as [[-> _] | [-> _]];
      [assumption|].
    apply incl_app; [assumption|]. intros x [<- | []]. assumption.
  - now apply dict_set_nodup.
  - now apply (@dict_set_Forall _ (fun dates : dates_map => NoDup (keys dates))).
Qed.

Section ScanFacts.
Variable E : env.

(** The aggregate after one pass through the loop body. *)
Lemma loop_body_aggregate facility st h c st' h' :
  loop_body E facility st h = (Ok (c, st'), h') ->
  all_available_slots st' = all_available_slots st
  \/ exists entry,
       all_available_slots st'
       = aggregate_set (all_available_slots st) facility
           (strftime_dmy (current_date st)) entry.
Proof.
  unfold loop_body, bind, ret, lift, sleep, emit.
  destruct (get_facility_slots E facility _ 0 h) as [[data|e] h1];
    [|discriminate].
  destruct (is_none data);
    [intros H; inversion H; subst; now left|].
  destruct (get data _ PyNone) as [status_code|e]; [|discriminate].
  destruct (extract_available_slots data) as [available|e]; [|discriminate].
  destruct (nonempty available).
  - destruct (get data (lit "response") (PyDict [])) as [r|e]; [|discriminate].
    destruct (get r (lit "outletDivison") _) as [dv|e]; [|discriminate].
    destruct (get r (lit "price") _) as [pr|e]; [|discriminate].
    destruct (_ || _); [intros H; inversion H; subst; simpl; right; eauto|].
    destruct (5 <? _); intros H; inversion H; subst; simpl; right; eauto.
  - destruct (_ || _); [intros H; inversion H; subst; now left|].
    destruct (5 <? _); intros H; inversion H; subst; now left.
Qed.

(** A property of the aggregate that every assignment for this facility
    keeps is kept by the whole scan of the facility. *)
Lemma check_dates_invariant (P : aggregate -> Prop) facility :
  (forall all date_str entry,
      P all -> P (aggregate_set all facility date_str entry)) ->
  forall n st h st' h',
    6 - dates_checked st = n ->
    check_dates E facility st h = (Ok st', h') ->
    P (all_available_slots st) -> P (all_available_slots st').
Proof.
  intros Hset.
  assert (Hstep : forall st h c st1 h1,
             loop_body E facility st h = (Ok (c, st1), h1) ->
             P (all_available_slots st) -> P (all_available_slots st1)).
  { intros st h c st1 h1 Hbody HP.
    apply loop_body_aggregate in Hbody.
    destruct Hbody as [-> | [entry ->]]; [assumption | now apply Hset]. }
  induction n as [|n IH]; intros st h st' h' Hn;
    rewrite check_dates_step;
    pose proof (loop_body_inv E facility st h) as Hinv; cbv zeta in Hinv;
    destruct (loop_body E facility st h) as [[[[|] st1]|e] h1] eqn:Hbody;
    try discriminate.
  - intros H; inversion H; subst. eapply Hstep; eassumption.
  - destruct Hinv as (_ & _ & Hdc & Hlim & _). lia.
  - intros H; inversion H; subst. eapply Hstep; eassumption.
  - destruct Hinv as (_ & _ & Hdc & Hlim & _).
    intros Hrun HP. apply (IH st1 h1 st' h'); [lia | assumption|].
    eapply Hstep; eassumption.
Qed.

Lemma facility_scan_invariant (P : aggregate -> Prop) facility all h all' h' :
  (forall all date_str entry,
      P all -> P (aggregate_set all facility date_str entry)) ->
  facility_scan E facility all h = (Ok all', h') ->
  P all -> P all'.
Proof.
  intros Hset. unfold facility_scan, bind, ret, sleep, emit.
  destruct (check_dates E facility (mkLoop (now E h) 0 all) h)
    as [[st|e] h1] eqn:Hrun; [|discriminate].
  intros H; inversion H; subst. intros HP.
  eapply check_dates_invariant; [exact Hset | reflexivity | exact Hrun | exact HP].
Qed.

Lemma for_facilities_keys_ok known facilities :
  incl facilities known ->
  forall all h all' h',
    for_facilities E facilities all h = (Ok all', h') ->
    aggregate_keys_ok known all -> aggregate_keys_ok known all'.
Proof.
  induction facilities as [|facility rest IH]; intros Hincl all h all' h'; simpl.
  - unfold ret. intros H; inversion H; subst. auto.
  - unfold bind.
    destruct (facility_scan E facility all h) as [[all1|e] h1] eqn:Hscan;
      [|discriminate].
    intros Hrest Hok.
    apply (IH (fun x Hx => Hincl x (or_intror Hx)) all1 h1 all' h' Hrest).
    eapply (@facility_scan_invariant (aggregate_keys_ok known));
      [|exact Hscan|exact Hok].
    intros a ds e. apply aggregate_set_keys_ok. apply Hincl. now left.
Qed.

End ScanFacts.

(** X8. Writing an entry and reading it back: after
    [all_slots[facility][date_str] = entry] the aggregate holds that entry
    under that facility and date, and what it holds under every other
    facility and date is as before. *)
Theorem aggregate_set_then_get all facility date_str entry :
  aggregate_get (aggregate_set all facility date_str entry) facility date_str
  = Some entry
  /\ forall facility' date_str',
       facility' <> facility \/ date_str' <> date_str ->
       aggregate_get (aggregate_set all facility date_str entry)
         facility' date_str'
       = aggregate_get all facility' date_str'.
Proof.
  unfold aggregate_get, aggregate_set. split.
  - rewrite dict_get_set_same. apply dict_get_set_same.
  - intros facility' date_str' Hother.
    destruct (list_eq_dec N.eq_dec facility' facility) as [-> | Hne].
    + destruct Hother as [Hf | Hd]; [congruence|].
      rewrite dict_get_set_same, dict_get_set_other by assumption.
      destruct (dict_get all facility); reflexivity.
    + now rewrite dict_get_set_other.
Qed.

(** X9. In the aggregate a run returns, every key is one of [FACILITIES],
    no facility occurs twice and no date occurs twice under a facility. *)
Theorem aggregate_keys_are_distinct_facilities E h all h' :
  check_facilities E h = (Ok all, h') ->
  incl (keys all) FACILITIES
  /\ NoDup (keys all)
  /\ Forall (fun item => NoDup (keys (snd item))) all.
Proof.
  intros Hrun.
  apply (@for_facilities_keys_ok E FACILITIES FACILITIES (incl_refl _)
           [] h all h' Hrun).
  split; [intros x [] | split; constructor].
Qed.

Lemma polling_event_incl facilities facilities' evs :
  incl facilities facilities' ->
  Forall (polling_event facilities) evs ->
  Forall (polling_event facilities') evs.
Proof.
  intros Hincl. apply Forall_impl. intros [f ds| | |]; simpl; auto.
Qed.

Section ScanTraces.
Variable E : env.

Lemma poll_requests facility date_str h :
  exists evs,
    snd (get_facility_slots E facility date_str 0 h) = h ++ evs
    /\ Forall (polling_event [facility]) evs
    /\ request_count evs <= MAX_RETRIES + 1.
Proof.
  destruct (@poller_trace_shape E facility date_str MAX_RETRIES 0 h eq_refl)
    as (k & Hk & Htrace).
  exists (retries facility date_str k ++ [Request facility date_str]).
  split; [assumption|]. split.
  - apply Forall_app. split.
    + clear. induction k as [|k IH]; [constructor|].
      unfold retries. simpl. repeat constructor; simpl; auto.
    + repeat constructor; simpl; auto.
  - rewrite request_count_app, request_count_retries.
    change (request_count [Request facility date_str]) with 1. lia.
Qed.

Lemma polls_trace_requests facility k :
  forall d h,
    exists evs,
      polls_trace E facility d k h = h ++ evs
      /\ Forall (polling_event [facility]) evs
      /\ request_count evs <= (MAX_RETRIES + 1) * k.
Proof.
  induction k as [|k IH]; intros d h.
  - exists []. split; [simpl; now rewrite app_nil_r|].
    split; [constructor | unfold request_count; simpl; lia].
  - destruct (poll_requests facility (strftime_dmy d) h)
      as (evs1 & Hpoll & Hevs1 & Hcount1).
    destruct k as [|k].
    + exists evs1. split; [assumption|]. split; [assumption | lia].
    + destruct (IH (next_day d)
                   (snd (get_facility_slots E facility (strftime_dmy d) 0 h)
                    ++ [Sleep DELAY_BETWEEN_REQUESTS]))
        as (evs2 & Hrest & Hevs2 & Hcount2).
      exists (evs1 ++ [Sleep DELAY_BETWEEN_REQUESTS] ++ evs2). split; [|split].
      * change (polls_trace E facility d (S (S k)) h)
          with (polls_trace E facility (next_day d) (S k)
                  (snd (get_facility_slots E facility (strftime_dmy d) 0 h)
                   ++ [Sleep DELAY_BETWEEN_REQUESTS])).
        rewrite Hrest, Hpoll. now repeat rewrite <- app_assoc.
      * apply Forall_app. split; [assumption|].
        apply Forall_app. split; [repeat constructor | assumption].
      * rewrite !request_count_app.
        change (request_count [Sleep DELAY_BETWEEN_REQUESTS]) with 0. lia.
Qed.

Lemma facility_scan_requests facility all h :
  exists evs,
    snd (facility_scan E facility all h) = h ++ evs
    /\ Forall (polling_event [facility]) evs
    /\ request_count evs <= 6 * (MAX_RETRIES + 1).
Proof.
  destruct (@check_dates_polls E facility 6 (mkLoop (now E h) 0 all) h eq_refl)
    as (k & Hk & Htrace); [simpl; lia|].
  destruct (polls_trace_requests facility k (now E h) h)
    as (evs & Hevs & Hall & Hcount).
  simpl in Htrace. rewrite Hevs in Htrace.
  unfold facility_scan, bind, ret, sleep, emit.
  destruct (check_dates E facility (mkLoop (now E h) 0 all) h)
    as [[st|e] h1]; simpl in *; subst h1.
  - exists (evs ++ [Sleep (DELAY_BETWEEN_REQUESTS * 2)]).
    split; [now rewrite <- app_assoc|]. split.
    + apply Forall_app. split; [assumption | repeat constructor].
    + rewrite request_count_app.
      change (request_count [Sleep (DELAY_BETWEEN_REQUESTS * 2)]) with 0.
      unfold MAX_RETRIES in *. lia.
  - exists evs. split; [reflexivity|]. split; [assumption|].
    unfold MAX_RETRIES in *. lia.
Qed.

Lemma for_facilities_requests facilities :
  forall all h,
    exists evs,
      snd (for_facilities E facilities all h) = h ++ evs
      /\ Forall (polling_event facilities) evs
      /\ request_count evs
         <= 6 * (MAX_RETRIES + 1) * List.length facilities.
Proof.
  induction facilities as [|facility rest IH]; intros all h; simpl.
  - exists []. unfold ret. simpl. split; [now rewrite app_nil_r|].
    split; [constructor | unfold request_count; simpl; lia].
  - destruct (facility_scan_requests facility all h)
      as (evs1 & Hscan & Hevs1 & Hcount1).
    unfold bind.
    destruct (facility_scan E facility all h) as [[all1|e] h1];
      simpl in Hscan; subst h1.
    + destruct (IH all1 (h ++ evs1)) as (evs2 & Hrest & Hevs2 & Hcount2).
      exists (evs1 ++ evs2). split; [|split].
      * rewrite Hrest. now rewrite <- app_assoc.
      * apply Forall_app. split.
        -- apply (@polling_event_incl [facility]); [|assumption].
           intros x [<- | []]. now left.
        -- apply (@polling_event_incl rest); [|assumption].
           intros x Hx. now right.
      * rewrite request_count_app. unfold MAX_RETRIES in *. lia.
    + exists evs1. split; [reflexivity|]. split.
      * apply (@polling_event_incl [facility]); [|assumption].
        intros x [<- | []]. now left.
      * unfold MAX_RETRIES in *. lia.
Qed.

(** Nothing else than the failure signal and objects comes out of a poll. *)
Lemma poll_result_is_none_or_object facility date_str h data h1 :
  get_facility_slots E facility date_str 0 h = (Ok data, h1) ->
  data = PyNone \/ is_dict data = true.
Proof.
  intros Hrun.
  destruct (@poller_result_origin E facility date_str MAX_RETRIES 0 h data h1
              eq_refl Hrun) as [Hnone | (_ & _ & _ & Hdict & _)]; auto.
Qed.

End ScanTraces.

(** X10. A payload with the sentinel status is still parsed: when it has
    available slots they are recorded under the current date, with the
    payload's 'outletDivison' and 'price' (or their defaults), and only then
    is the loop left, the date unchanged and the counter one higher. *)
Theorem sentinel_payload_slots_are_recorded E facility st h d h1 found :
  get_facility_slots E facility (strftime_dmy (current_date st)) 0 h
  = (Ok (PyDict d), h1) ->
  sentinel_status (field (PyDict d) (lit "responseStatusCode") PyNone) = true ->
  extract_available_slots (PyDict d) = Ok found ->
  found <> [] ->
  check_dates E facility st h
  = (Ok (mkLoop (current_date st) (dates_checked st + 1)
           (aggregate_set (all_available_slots st) facility
              (strftime_dmy (current_date st))
              (mkEntry found
                 (field (field (PyDict d) (lit "response") PyNone)
                    (lit "outletDivison") (PyStr []))
                 (field (field (PyDict d) (lit "response") PyNone)
                    (lit "price") (PyDict []))))),
     h1).
Proof.
  intros Hpoll Hsent Hfound Hne.
  destruct (extract_response_is_object d Hfound Hne) as (rd & Hresp).
  rewrite check_dates_step. unfold loop_body, bind, ret, lift.
  rewrite Hpoll. simpl. rewrite Hfound. simpl.
  destruct found as [|record found]; [congruence|]. simpl.
  rewrite Hresp. simpl.
  unfold sentinel_status in Hsent. simpl in Hsent.
  rewrite orb_comm in Hsent. rewrite Hsent. reflexivity.
Qed.

Lemma facility_scan_after_failure E facility all h h1 :
  get_facility_slots E facility (strftime_dmy (now E h)) 0 h = (Ok PyNone, h1) ->
  facility_scan E facility all h = (Ok all, h1 ++ [Sleep 6]).
Proof.
  intros Hpoll. unfold facility_scan, bind, ret, sleep, emit.
  rewrite check_dates_step. unfold loop_body, bind, ret. simpl.
  now rewrite Hpoll.
Qed.

Lemma check_dates_after_passes E facility n :
  forall st h st' h',
    after_passes E facility n st h = Some (st', h') ->
    check_dates E facility st h = check_dates E facility st' h'.
Proof.
  induction n as [|n IH]; intros st h st' h'; simpl.
  - now intros H; inversion H.
  - rewrite (check_dates_step E facility st h).
    destruct (loop_body E facility st h) as [[[[|] st1]|e] h1];
      try discriminate.
    apply IH.
Qed.

(** X11. A date for which the poller gives up, be it the first date of the
    facility or a later one, does not end the run: the scan of the facility
    stops there with the aggregate as it was before that date, sleeps the
    between-facilities delay and hands over to the next facility. *)
Theorem failed_date_ends_only_the_facility E facility rest all h n st hn h1 :
  after_passes E facility n (mkLoop (now E h) 0 all) h = Some (st, hn) ->
  get_facility_slots E facility (strftime_dmy (current_date st)) 0 hn
  = (Ok PyNone, h1) ->
  check_dates E facility (mkLoop (now E h) 0 all) h = (Ok st, h1)
  /\ facility_scan E facility all h
     = (Ok (all_available_slots st), h1 ++ [Sleep 6])
  /\ for_facilities E (facility :: rest) all h
     = for_facilities E rest (all_available_slots st) (h1 ++ [Sleep 6]).
Proof.
  intros Hpasses Hpoll.
  assert (Hloop : check_dates E facility (mkLoop (now E h) 0 all) h
                  = (Ok st, h1)).
  { rewrite (check_dates_after_passes E facility n _ _ Hpasses).
    rewrite check_dates_step. unfold loop_body, bind, ret.
    now rewrite Hpoll. }
  assert (Hscan : facility_scan E facility all h
                  = (Ok (all_available_slots st), h1 ++ [Sleep 6])).
  { unfold facility_scan, bind, ret, sleep, emit. now rewrite Hloop. }
  split; [assumption|]. split; [assumption|].
  simpl. unfold bind. now rewrite Hscan.
Qed.

(** X12. An exception of the parser is not caught by the driver: when the
    parser raises on a polled payload, on the first date of a facility or
    on a later one, the scan of the facility and the whole loop over the
    facilities end with that exception, right after the poll, and no other
    facility is polled. *)
Theorem parser_error_ends_the_scan E facility rest all h n st hn data h1 e :
  after_passes E facility n (mkLoop (now E h) 0 all) h = Some (st, hn) ->
  get_facility_slots E facility (strftime_dmy (current_date st)) 0 hn
  = (Ok data, h1) ->
  extract_available_slots data = Raise e ->
  check_dates E facility (mkLoop (now E h) 0 all) h = (Raise e, h1)
  /\ for_facilities E (facility :: rest) all h = (Raise e, h1).
Proof.
  intros Hpasses Hpoll Hraise.
  assert (Hloop : check_dates E facility (mkLoop (now E h) 0 all) h
                  = (Raise e, h1)).
  { rewrite (check_dates_after_passes E facility n _ _ Hpasses).
    destruct (poll_result_is_none_or_object _ _ _ _ Hpoll) as [-> | Hdict];
      [discriminate|].
    destruct data as [| | | | | |d]; try discriminate.
    rewrite check_dates_step. unfold loop_body, bind, ret, lift.
    rewrite Hpoll. simpl. now rewrite Hraise. }
  split; [assumption|].
  simpl. unfold bind, facility_scan, bind. now rewrite Hloop.
Qed.

(** X13. A run of [check_facilities] only sleeps and sends requests for
    facilities of [FACILITIES]: it never posts to the chat and never writes
    a file, and it sends at most 6 x 4 requests per facility, 144 in all. *)
Theorem check_facilities_only_polls E h :
  exists evs,
    snd (check_facilities E h) = h ++ evs
    /\ Forall (polling_event FACILITIES) evs
    /\ request_count evs <= 144.
Proof.
  destruct (for_facilities_requests E FACILITIES [] h)
    as (evs & Hevs & Hall & Hcount).
  exists evs. split; [assumption|]. split; [assumption|].
  exact Hcount.
Qed.

Lemma for_facilities_network_down E facilities :
  (forall h facility date_str, api E h facility date_str = RequestException) ->
  forall all h,
    exists evs,
      for_facilities E facilities all h = (Ok all, h ++ evs)
      /\ request_count evs = (MAX_RETRIES + 1) * List.length facilities.
Proof.
  intros Hdown. induction facilities as [|facility rest IH]; intros all h.
  - exists []. simpl. unfold ret. now rewrite app_nil_r.
  - assert (Hpoll : get_facility_slots E facility (strftime_dmy (now E h)) 0 h
                    = (Ok PyNone,
                       h ++ retries facility (strftime_dmy (now E h)) MAX_RETRIES
                         ++ [Request facility (strftime_dmy (now E h))])).
    { apply poller_gives_up; [reflexivity|].
      intros k _. now rewrite Hdown. }
    simpl. unfold bind.
    rewrite (facility_scan_after_failure E facility all h Hpoll).
    destruct (IH all ((h ++ retries facility (strftime_dmy (now E h)) MAX_RETRIES
                         ++ [Request facility (strftime_dmy (now E h))])
                      ++ [Sleep 6])) as (evs & Hrest & Hcount).
    exists ((retries facility (strftime_dmy (now E h)) MAX_RETRIES
             ++ [Request facility (strftime_dmy (now E h))])
            ++ [Sleep 6] ++ evs).
    split.
    + rewrite Hrest. now repeat rewrite <- app_assoc.
    + rewrite !request_count_app, request_count_retries, Hcount.
      change (request_count [Sleep 6]) with 0.
      change (request_count [Request facility (strftime_dmy (now E h))]) with 1.
      unfold MAX_RETRIES. lia.
Qed.

(** X14. When every request fails, the run still ends normally: it returns
    the empty aggregate after exactly four requests for each of the six
    facilities. *)
Theorem network_down_gives_empty_aggregate E h :
  (forall h' facility date_str, api E h' facility date_str = RequestException) ->
  exists evs,
    check_facilities E h = (Ok [], h ++ evs)
    /\ request_count evs = 24.
Proof.
  intros Hdown.
  destruct (@for_facilities_network_down E FACILITIES Hdown [] h)
    as (evs & Hrun & Hcount).
  exists evs. split; assumption.
Qed.

(** ** Summary formatter *)

Lemma dict_get_absent {V} (d : list (pystr * V)) k :
  ~ In k (keys d) -> dict_get d k = None.
Proof.
  unfold keys. induction d as [|[k' v] d IH]; simpl; [reflexivity|].
  intros Hnot. destruct (str_eqb k' k) eqn:Hk.
  - apply str_eqb_eq in Hk. tauto.
  - apply IH. tauto.
Qed.

(** X15. Every facility the script checks has a readable name, different
    from its code, and a code outside the list is shown as it is. *)
Theorem facility_names_cover_the_facilities facility :
  (In facility FACILITIES -> format_facility_name facility <> facility)
  /\ (~ In facility FACILITIES -> format_facility_name facility = facility).
Proof.
  split.
  - intros Hin. simpl in Hin.
    repeat (destruct Hin as [<- | Hin]; [vm_compute; discriminate|]).
    destruct Hin.
  - intros Hnot. unfold format_facility_name.
    now rewrite (dict_get_absent facility_names facility Hnot).
Qed.

Lemma list_sum_cons a l : list_sum (a :: l) = a + list_sum l.
Proof. reflexivity. Qed.

Lemma insert_sorted_sum {V} (f : pystr * V -> nat) kv (l : list (pystr * V)) :
  list_sum (map f (insert_sorted kv l)) = f kv + list_sum (map f l).
Proof.
  induction l as [|kv' l IH]; simpl; [reflexivity|].
  destruct (str_leb (fst kv) (fst kv')); simpl; [reflexivity|].
  rewrite IH. lia.
Qed.

Lemma sorted_items_sum {V} (f : pystr * V -> nat) (d : list (pystr * V)) :
  list_sum (map f (sorted_items d)) = list_sum (map f d).
Proof.
  induction d as [|kv d IH]; simpl; [reflexivity|].
  now rewrite insert_sorted_sum, IH.
Qed.

Lemma insert_sorted_In {V} (kv x : pystr * V) (l : list (pystr * V)) :
  In x (insert_sorted kv l) <-> x = kv \/ In x l.
Proof.
  induction l as [|kv' l IH]; simpl; [intuition|].
  destruct (str_leb (fst kv) (fst kv')); simpl; [intuition|].
  rewrite IH. intuition.
Qed.

Lemma sorted_items_In {V} (x : pystr * V) (d : list (pystr * V)) :
  In x (sorted_items d) <-> In x d.
Proof.
  induction d as [|kv d IH]; simpl; [tauto|].
  rewrite insert_sorted_In, IH. intuition.
Qed.

Lemma sorted_items_forallb {V} (p : pystr * V -> bool) (d : list (pystr * V)) :
  forallb p d = true -> forallb p (sorted_items d) = true.
Proof.
  rewrite !forallb_forall. intros Hall x Hx.
  apply Hall. now apply sorted_items_In.
Qed.

Section SummaryFacts.
Variable E : env.

Lemma group_slots_ok found :
  slots_hashable found = true ->
  forall courts, exists courts', for_each group_slot found courts = Ok courts'.
Proof.
  induction found as [|slot found IH]; simpl; intros Hh courts.
  - now exists courts.
  - apply andb_true_iff in Hh. destruct Hh as [Hslot Hrest].
    unfold group_slot at 1. rewrite Hslot. simpl. now apply IH.
Qed.

Lemma date_body_grows item s :
  slots_hashable (slots (snd item)) = true ->
  exists s',
    date_body E item s = Ok s'
    /\ summary_grows s s' (List.length (slots (snd item))) 0.
Proof.
  intros Hh. unfold date_body.
  destruct (group_slots_ok _ Hh []) as (courts & ->). simpl.
  eexists. split; [reflexivity|]. unfold summary_grows. simpl.
  split; [|lia]. rewrite <- app_assoc. eauto.
Qed.

Lemma dates_grow dates :
  dates_hashable dates = true ->
  forall s,
    exists s',
      for_each (date_body E) dates s = Ok s'
      /\ summary_grows s s' (dates_slot_total dates) 0.
Proof.
  induction dates as [|item dates IH]; simpl; intros Hh s.
  - exists s. split; [reflexivity|]. unfold summary_grows.
    split; [exists []; now rewrite app_nil_r | unfold dates_slot_total; simpl; lia].
  - apply andb_true_iff in Hh. destruct Hh as [Hitem Hrest].
    destruct (date_body_grows item s Hitem) as (s1 & -> & (x1 & Hl1) & Ht1 & Hf1).
    simpl. destruct (IH Hrest s1) as (s2 & -> & (x2 & Hl2) & Ht2 & Hf2).
    exists s2. split; [reflexivity|]. unfold summary_grows.
    split; [|unfold dates_slot_total in *; simpl; lia].
    exists (x1 ++ x2). rewrite Hl2, Hl1. now rewrite app_assoc.
Qed.

Lemma facility_body_grows item s :
  dates_hashable (snd item) = true ->
  exists s',
    facility_body E item s = Ok s'
    /\ summary_grows s s' (dates_slot_total (snd item))
         (if nonempty (snd item) then 1 else 0).
Proof.
  intros Hh. unfold facility_body.
  destruct (nonempty (snd item)) eqn:Hne.
  - destruct (@dates_grow (sorted_items (snd item))
                (sorted_items_forallb _ _ Hh)
                (mkSummary (lines s ++ [facility_header
                                          (format_facility_name (fst item))])
                           (total_slots s) (facilities_with_slots s + 1)))
      as (s' & -> & (x & Hl) & Ht & Hf).
    exists s'. split; [reflexivity|]. simpl in *.
    unfold summary_grows. split; [|split].
    + rewrite Hl, <- app_assoc. eauto.
    + rewrite Ht. unfold dates_slot_total. now rewrite sorted_items_sum.
    + lia.
  - exists s. split; [reflexivity|]. unfold summary_grows.
    destruct (snd item); [|discriminate].
    split; [exists []; now rewrite app_nil_r | unfold dates_slot_total; simpl; lia].
Qed.

Lemma facilities_grow items :
  courts_hashable items = true ->
  forall s,
    exists s',
      for_each (facility_body E) items s = Ok s'
      /\ summary_grows s s' (slot_total items) (facilities_with_dates items).
Proof.
  induction items as [|item items IH]; simpl; intros Hh s.
  - exists s. split; [reflexivity|]. unfold summary_grows.
    split; [exists []; now rewrite app_nil_r|].
    unfold slot_total, facilities_with_dates; simpl; lia.
  - apply andb_true_iff in Hh. destruct Hh as [Hitem Hrest].
    destruct (facility_body_grows item s Hitem)
      as (s1 & -> & (x1 & Hl1) & Ht1 & Hf1).
    simpl. destruct (IH Hrest s1) as (s2 & -> & (x2 & Hl2) & Ht2 & Hf2).
    exists s2. split; [reflexivity|]. unfold summary_grows.
    split; [|unfold slot_total, facilities_with_dates in *;
             cbn [map]; rewrite !list_sum_cons; lia].
    exists (x1 ++ x2). rewrite Hl2, Hl1. now rewrite app_assoc.
Qed.

End SummaryFacts.

(** X16. When every court name can be a dict key, the formatter returns a
    message whose lines are the title, the time of the check, the lines of
    the facilities, and then the closing line and the legend: the closing
    line is "No available slots found" when the aggregate has no slot, and
    otherwise gives the number of slot records of the aggregate and the
    number of its facilities that have a date. *)
Theorem summary_counts_slots_and_facilities E all h :
  courts_hashable all = true ->
  exists middle,
    summary_lines E all h
    = Ok ([title_line; checked_on_line (now E h)] ++ middle
          ++ [ if slot_total all =? 0 then no_slots_line
               else total_line (slot_total all) (facilities_with_dates all);
               legend_line ]).
Proof.
  intros Hh. unfold summary_lines. cbv zeta.
  destruct (@facilities_grow E (sorted_items all)
              (sorted_items_forallb _ _ Hh)
              (mkSummary [title_line; checked_on_line (now E h)] 0 0))
    as (s & -> & (middle & Hl) & Ht & Hf).
  simpl in *. exists middle. rewrite Hl, Ht, Hf.
  unfold slot_total, facilities_with_dates. rewrite !sorted_items_sum.
  reflexivity.
Qed.

Lemma for_each_error_kind {A B} (body : A -> B -> res B) (e0 : pyexc) items :
  (forall x s e, body x s = Raise e -> e = e0) ->
  forall s e, for_each body items s = Raise e -> e = e0.
Proof.
  intros Hkind. induction items as [|x items IH]; simpl; intros s e;
    [discriminate|].
  destruct (body x s) as [s'|e'] eqn:Hx; simpl.
  - apply IH.
  - intros H; inversion H; subst. now apply (Hkind x s).
Qed.

Lemma for_each_raises {A B} (body : A -> B -> res B) (e0 : pyexc) items bad :
  (forall x s e, body x s = Raise e -> e = e0) ->
  In bad items ->
  (forall s, body bad s = Raise e0) ->
  forall s, for_each body items s = Raise e0.
Proof.
  intros Hkind Hin Hbad. induction items as [|x items IH]; [destruct Hin|].
  intros s. simpl. destruct (body x s) as [s'|e] eqn:Hx; simpl.
  - destruct Hin as [-> | Hin]; [rewrite Hbad in Hx; discriminate|].
    now apply IH.
  - f_equal. now apply (Hkind x s).
Qed.

Section SummaryErrors.
Variable E : env.

Lemma group_slot_error slot courts e :
  group_slot slot courts = Raise e -> e = TypeError.
Proof.
  unfold group_slot. destruct (hashable (court slot)); [discriminate|].
  now intros H; inversion H.
Qed.

Lemma date_body_error item s e :
  date_body E item s = Raise e -> e = TypeError.
Proof.
  unfold date_body.
  destruct (for_each group_slot (slots (snd item)) []) as [courts|e'] eqn:Hg;
    simpl; [discriminate|].
  intros H; inversion H; subst.
  exact (for_each_error_kind group_slot (slots (snd item)) group_slot_error
           [] Hg).
Qed.

Lemma facility_body_error item s e :
  facility_body E item s = Raise e -> e = TypeError.
Proof.
  unfold facility_body. destruct (nonempty (snd item)); [|discriminate].
  apply for_each_error_kind. apply date_body_error.
Qed.

Lemma date_body_raises date_str entry slot s :
  In slot (slots entry) -> hashable (court slot) = false ->
  date_body E (date_str, entry) s = Raise TypeError.
Proof.
  intros Hin Hbad. unfold date_body. simpl.
  rewrite (@for_each_raises _ _ group_slot TypeError (slots entry) slot
             group_slot_error Hin); [reflexivity|].
  intros courts. unfold group_slot. now rewrite Hbad.
Qed.

Lemma facility_body_raises facility dates date_str entry slot s :
  In (date_str, entry) dates ->
  In slot (slots entry) -> hashable (court slot) = false ->
  facility_body E (facility, dates) s = Raise TypeError.
Proof.
  intros Hdate Hin Hbad. unfold facility_body. simpl.
  destruct dates as [|d dates]; [destruct Hdate|].
  cbn [nonempty].
  apply (@for_each_raises _ _ (date_body E) TypeError _ (date_str, entry)).
  - apply date_body_error.
  - now apply sorted_items_In.
  - intros s'. now apply (date_body_raises date_str entry slot).
Qed.

End SummaryErrors.

(** X17. A court name that cannot be a dict key (a list or an object in the
    payload's 'resourceName') makes the formatter raise [TypeError]: one
    such slot anywhere in the aggregate and no summary is produced. *)
Theorem summary_raises_on_unhashable_court
  E all h facility dates date_str entry slot :
  In (facility, dates) all ->
  In (date_str, entry) dates ->
  In slot (slots entry) ->
  hashable (court slot) = false ->
  create_telegram_summary E all h = (Raise TypeError, h).
Proof.
  intros Hfac Hdate Hin Hbad.
  unfold create_telegram_summary, summary_lines. cbv zeta.
  rewrite (@for_each_raises _ _ (facility_body E) TypeError _ (facility, dates)).
  - reflexivity.
  - apply facility_body_error.
  - now apply sorted_items_In.
  - intros s. eapply facility_body_raises; eassumption.
Qed.

(** ** Notifier *)

(** ** Notifier *)

Lemma send_each_stops E bot_token chat_id chunk after before :
  forall h,
    (forall pre c post,
        before = pre ++ c :: post ->
        chat_api E (h ++ posts bot_token chat_id pre) c = true) ->
    chat_api E (h ++ posts bot_token chat_id before) chunk = false ->
    send_each E bot_token chat_id (before ++ chunk :: after) h
    = (Ok false,
       h ++ posts bot_token chat_id before ++ [Post bot_token chat_id chunk]).
Proof.
  induction before as [|c before IH]; intros h Hgood Hbad; simpl.
  - simpl in Hbad. rewrite app_nil_r in Hbad. rewrite Hbad.
    reflexivity.
  - pose proof (Hgood [] c before eq_refl) as Hc. simpl in Hc.
    rewrite app_nil_r in Hc. rewrite Hc.
    unfold bind, emit, sleep; simpl.
    rewrite IH.
    + now repeat rewrite <- app_assoc.
    + intros pre c' post Heq.
      specialize (Hgood (c :: pre) c' post). simpl in Hgood.
      repeat rewrite <- app_assoc. simpl. apply Hgood. now rewrite Heq.
    + repeat rewrite <- app_assoc. exact Hbad.
Qed.

(** X18. Without credentials (a token or a chat id that is missing or
    empty) the notifier returns [False] and does nothing: no post, no
    sleep. *)
Theorem notifier_without_credentials E message h :
  configured (TELEGRAM_BOT_TOKEN E) && configured (TELEGRAM_CHAT_ID E) = false ->
  send_telegram_message E message h = (Ok false, h).
Proof.
  unfold send_telegram_message.
  destruct (TELEGRAM_BOT_TOKEN E) as [bot_token|]; [|reflexivity].
  destruct (TELEGRAM_CHAT_ID E) as [chat_id|]; [|reflexivity].
  now intros ->.
Qed.

(** X19. A post that fails ends the notification: the chunks before it
    have been posted, each followed by the one-second delay, the failing
    chunk has been tried once, the chunks after it are never posted, and
    the result is [False]. *)
Theorem notifier_stops_at_first_failure
  E bot_token chat_id message h before chunk after :
  TELEGRAM_BOT_TOKEN E = Some bot_token ->
  TELEGRAM_CHAT_ID E = Some chat_id ->
  bot_token <> [] -> chat_id <> [] ->
  split_message message = before ++ chunk :: after ->
  (forall pre c post,
      before = pre ++ c :: post ->
      chat_api E (h ++ posts bot_token chat_id pre) c = true) ->
  chat_api E (h ++ posts bot_token chat_id before) chunk = false ->
  send_telegram_message E message h
  = (Ok false,
     h ++ posts bot_token chat_id before ++ [Post bot_token chat_id chunk]).
Proof.
  intros Htoken Hchat Htok Hid Hsplit Hgood Hbad.
  unfold send_telegram_message. rewrite Htoken, Hchat.
  destruct bot_token; [congruence|]. destruct chat_id; [congruence|].
  simpl. rewrite Hsplit. now apply send_each_stops.
Qed.

(** X20. The message is cut into as many chunks as 4000 goes into its
    length, rounded up; no chunk is empty, and every chunk but the last
    has exactly 4000 characters. *)
Theorem chunks_are_full_but_the_last message i :
  i < List.length (split_message message) ->
  List.length (split_message message) = (List.length message + 3999) / 4000
  /\ 0 < List.length (nth i (split_message message) [])
  /\ (S i < List.length (split_message message) ->
      List.length (nth i (split_message message) []) = 4000).
Proof.
  assert (Hcount : List.length (split_message message)
                   = (List.length message + 3999) / 4000).
  { unfold split_message, range0. rewrite !length_map, length_seq.
    unfold max_length. f_equal. lia. }
  intros Hi. split; [exact Hcount|].
  pose proof (Nat.div_mod_eq (List.length message + 3999) 4000) as Hdiv.
  pose proof (Nat.mod_upper_bound (List.length message + 3999) 4000) as Hmod.
  assert (Hnth : List.length (nth i (split_message message) [])
                 = Nat.min 4000 (List.length message - i * 4000)).
  { unfold split_message, range0.
    rewrite (nth_indep _ [] (slice message (0 * max_length + 0)
                               (0 * max_length + 0 + max_length)))
      by exact Hi.
    rewrite (map_nth (fun k => slice message k (k + max_length))
               (map (fun k => k * max_length) _) (0 * max_length + 0)).
    rewrite (map_nth (fun k => k * max_length) _ 0).
    rewrite seq_nth
      by (rewrite Hcount in Hi; unfold max_length;
          replace (List.length message + 4000 - 1)
            with (List.length message + 3999) by lia; exact Hi).
    unfold slice. rewrite length_firstn, length_skipn.
    unfold max_length. simpl (0 + i). f_equal. lia. }
  rewrite Hnth. rewrite Hcount in *. split; [|intros Hnext]; lia.
Qed.

(** X21. With the credentials configured, the empty message is sent as no
    chunk at all: the notifier reports success without a single post. *)
Theorem notifier_on_empty_message E h :
  configured (TELEGRAM_BOT_TOKEN E) && configured (TELEGRAM_CHAT_ID E) = true ->
  send_telegram_message E [] h = (Ok true, h).
Proof.
  unfold send_telegram_message.
  destruct (TELEGRAM_BOT_TOKEN E) as [bot_token|]; [|discriminate].
  destruct (TELEGRAM_CHAT_ID E) as [chat_id|];
    [|rewrite andb_false_r; discriminate].
  now intros ->.
Qed.

(** ** Sample runs of the further properties *)

Lemma poller_result_is_accepted_witness :
  exists before,
    [Request KALLANG DAY1] = before ++ [Request KALLANG DAY1]
    /\ api scenario_env before KALLANG DAY1 = Body scenario_payload
    /\ is_dict scenario_payload = true
    /\ accepted (field scenario_payload (lit "responseStatusCode") PyNone) = true.
Proof.
  apply (@poller_result_is_accepted scenario_env KALLANG DAY1 []
           scenario_payload [Request KALLANG DAY1]).
  - reflexivity.
  - discriminate.
Defined.

Lemma poller_raises_on_non_object_body_witness :
  get_facility_slots list_body_env KALLANG DAY1 0 []
  = (Raise AttributeError, [Request KALLANG DAY1]).
Proof.
  apply (@poller_raises_on_non_object_body list_body_env KALLANG DAY1 0 []
           (PyList [])); reflexivity.
Defined.


Lemma extract_raises_on_non_object_response_witness :
  extract_available_slots
    (PyDict [ (lit "responseStatusCode", PyInt 2008);
              (lit "response", PyStr (lit "closed")) ])
  = Raise AttributeError.
Proof.
  apply (@extract_raises_on_non_object_response _ (PyStr (lit "closed")));
    reflexivity.
Defined.

Lemma extract_raises_on_non_iterable_resources_witness :
  extract_available_slots
    (PyDict [ (lit "response", PyDict [ (lit "resourceList", PyNone) ]) ])
  = Raise TypeError.
Proof.
  apply (@extract_raises_on_non_iterable_resources _
           [ (lit "resourceList", PyNone) ] PyNone); reflexivity.
Defined.

Lemma extract_aborts_on_malformed_resource_witness :
  extract_available_slots (PyDict half_broken_payload) = Raise AttributeError.
Proof.
  apply (@extract_aborts_on_malformed_resource half_broken_payload
           [ (lit "resourceList",
              PyList [ PyDict [ (lit "resourceName", PyStr (lit "Court 1"));
                                (lit "slotList",
                                 PyList [ PyDict [ (lit "isAvailable", PyBool true) ] ]) ];
                       PyNone ]) ]
           [ PyDict [ (lit "resourceName", PyStr (lit "Court 1"));
                      (lit "slotList",
                       PyList [ PyDict [ (lit "isAvailable", PyBool true) ] ]) ] ]
           PyNone []); reflexivity.
Defined.

Lemma aggregate_set_then_get_witness :
  aggregate_get
    (aggregate_set scenario_aggregate KALLANG (lit "02/01/2025")
       (mkEntry [list_court_slot] (PyStr []) (PyDict [])))
    KALLANG DAY1
  = aggregate_get scenario_aggregate KALLANG DAY1.
Proof.
  apply (proj2 (aggregate_set_then_get scenario_aggregate KALLANG
                  (lit "02/01/2025")
                  (mkEntry [list_court_slot] (PyStr []) (PyDict [])))).
  right. vm_compute. discriminate.
Defined.

Lemma aggregate_keys_are_distinct_facilities_witness :
  incl (keys scenario_aggregate) FACILITIES
  /\ NoDup (keys scenario_aggregate)
  /\ Forall (fun item => NoDup (keys (snd item))) scenario_aggregate.
Proof.
  apply (@aggregate_keys_are_distinct_facilities scenario_env []
           scenario_aggregate scenario_history).
  vm_compute. reflexivity.
Defined.

Lemma sentinel_payload_slots_are_recorded_witness :
  check_dates sentinel_with_slots_env KALLANG
    (mkLoop (mkDate 2025 1 1 9 30) 2 []) []
  = (Ok (mkLoop (mkDate 2025 1 1 9 30) 3
           [ (KALLANG,
              [ (DAY1,
                 mkEntry [ mkSlot (PyStr (lit "Court 1"))
                                  (PyStr (lit "7:00 PM - 8:00 PM"))
                                  PyNone PyNone (PyBool true) ]
                         (PyStr (lit "CC")) (PyDict [])) ]) ]),
     [Request KALLANG DAY1]).
Proof.
  apply (@sentinel_payload_slots_are_recorded sentinel_with_slots_env KALLANG
           (mkLoop (mkDate 2025 1 1 9 30) 2 []) [] sentinel_with_slots
           [Request KALLANG DAY1]
           [ mkSlot (PyStr (lit "Court 1")) (PyStr (lit "7:00 PM - 8:00 PM"))
                    PyNone PyNone (PyBool true) ]).
  - reflexivity.
  - reflexivity.
  - reflexivity.
  - discriminate.
Defined.

Lemma failed_date_ends_only_the_facility_witness :
  facility_scan later_failure_env KALLANG [] []
  = (Ok scenario_aggregate,
     [ Request KALLANG DAY1; Sleep 3;
       Request KALLANG (lit "02/01/2025"); Sleep 20;
       Request KALLANG (lit "02/01/2025"); Sleep 20;
       Request KALLANG (lit "02/01/2025"); Sleep 20;
       Request KALLANG (lit "02/01/2025"); Sleep 6 ]).
Proof.
  apply (@failed_date_ends_only_the_facility later_failure_env KALLANG []
           [] [] 1 (mkLoop (mkDate 2025 1 2 9 30) 1 scenario_aggregate)
           [Request KALLANG DAY1; Sleep 3]
           [ Request KALLANG DAY1; Sleep 3;
             Request KALLANG (lit "02/01/2025"); Sleep 20;
             Request KALLANG (lit "02/01/2025"); Sleep 20;
             Request KALLANG (lit "02/01/2025"); Sleep 20;
             Request KALLANG (lit "02/01/2025") ]).
  - vm_compute. reflexivity.
  - vm_compute. reflexivity.
Defined.

Lemma parser_error_ends_the_scan_witness :
  for_facilities later_null_env FACILITIES [] []
  = (Raise AttributeError,
     [ Request (lit "teckgheecc_BADMINTONCOURTS") DAY1; Sleep 3;
       Request (lit "teckgheecc_BADMINTONCOURTS") (lit "02/01/2025") ]).
Proof.
  apply (@parser_error_ends_the_scan later_null_env
           (lit "teckgheecc_BADMINTONCOURTS") (tl FACILITIES) [] [] 1
           (mkLoop (mkDate 2025 1 2 9 30) 1
              [ (lit "teckgheecc_BADMINTONCOURTS",
                 [ (DAY1,
                    mkEntry [ mkSlot (PyStr (lit "Court 1"))
                                     (PyStr (lit "7:00 PM - 8:00 PM"))
                                     PyNone PyNone (PyBool true) ]
                            (PyStr []) (PyDict [])) ]) ])
           [Request (lit "teckgheecc_BADMINTONCOURTS") DAY1; Sleep 3]
           null_response_payload).
  - vm_compute. reflexivity.
  - vm_compute. reflexivity.
  - reflexivity.
Defined.

Lemma network_down_gives_empty_aggregate_witness :
  exists evs,
    check_facilities network_down_env [] = (Ok [], [] ++ evs)
    /\ request_count evs = 24.
Proof.
  apply (@network_down_gives_empty_aggregate network_down_env []).
  reflexivity.
Defined.

Lemma facility_names_cover_the_facilities_witness :
  format_facility_name KALLANG <> KALLANG
  /\ format_facility_name (lit "yishuncc_TENNIS") = lit "yishuncc_TENNIS".
Proof.
  split.
  - apply (proj1 (facility_names_cover_the_facilities KALLANG)).
    vm_compute. tauto.
  - apply (proj2 (facility_names_cover_the_facilities (lit "yishuncc_TENNIS"))).
    vm_compute. intuition discriminate.
Defined.

Lemma summary_counts_slots_and_facilities_witness :
  exists middle,
    summary_lines scenario_env scenario_aggregate []
    = Ok ([title_line; checked_on_line (mkDate 2025 1 1 9 30)] ++ middle
          ++ [total_line 1 1; legend_line]).
Proof.
  apply (@summary_counts_slots_and_facilities scenario_env scenario_aggregate []).
  reflexivity.
Defined.

Lemma summary_raises_on_unhashable_court_witness :
  create_telegram_summary scenario_env list_court_aggregate []
  = (Raise TypeError, []).
Proof.
  apply (@summary_raises_on_unhashable_court scenario_env list_court_aggregate
           [] KALLANG
           [ (DAY1, mkEntry [list_court_slot] (PyStr []) (PyDict [])) ]
           DAY1 (mkEntry [list_court_slot] (PyStr []) (PyDict []))
           list_court_slot).
  - left. reflexivity.
  - left. reflexivity.
  - left. reflexivity.
  - reflexivity.
Defined.

Lemma notifier_without_credentials_witness :
  send_telegram_message network_down_env (lit "hello") [] = (Ok false, []).
Proof.
  apply (@notifier_without_credentials network_down_env (lit "hello") []).
  reflexivity.
Defined.

Lemma notifier_stops_at_first_failure_witness :
  send_telegram_message one_post_env (repeat 120%N 9000) []
  = (Ok false,
     [ Post (lit "token") (lit "42") (repeat 120%N 4000); Sleep 1;
       Post (lit "token") (lit "42") (repeat 120%N 4000) ]).
Proof.
  apply (@notifier_stops_at_first_failure one_post_env (lit "token") (lit "42")
           (repeat 120%N 9000) [] [repeat 120%N 4000] (repeat 120%N 4000)
           [repeat 120%N 1000]).
  - reflexivity.
  - reflexivity.
  - discriminate.
  - discriminate.
  - vm_compute. reflexivity.
  - intros pre c post Heq.
    destruct pre as [|x pre].
    + reflexivity.
    + destruct pre; discriminate Heq.
  - reflexivity.
Defined.

Lemma chunks_are_full_but_the_last_witness :
  List.length (split_message (repeat 120%N 9000)) = 3
  /\ List.length (nth 0 (split_message (repeat 120%N 9000)) []) = 4000.
Proof.
  destruct (@chunks_are_full_but_the_last (repeat 120%N 9000) 0)
    as (Hcount & _ & Hfull).
  - vm_compute. lia.
  - split.
    + rewrite Hcount. vm_compute. reflexivity.
    + apply Hfull. vm_compute. lia.
Defined.

Lemma notifier_on_empty_message_witness :
  send_telegram_message scenario_env [] [] = (Ok true, []).
Proof.
  apply (@notifier_on_empty_message scenario_env []). reflexivity.
Defined.
